(** * OpenSnake: track storage, playback, recording and long-press input

    A shallow embedding of [Firmware/OpenSnake/OpenSnake.ino] (the firmware
    of the "Snake in a Can" controller) and the properties of its EEPROM
    track format, of playback and recording, of the track selector, of the
    button sampler and of the first-boot reset.

    Conventions of the embedding:
    - [byte] variables are [Z] values in [0, 256), [int] is the 16-bit
      signed integer of the ATmega328, [long] the 32-bit one; every
      conversion and wrap-around of the source is written out;
    - the EEPROM is a total map from addresses to bytes;
    - the sketch's globals, the EEPROM and the environment (button lines,
      millisecond timer) are fields of one [world] that every function
      threads; everything the sketch sends to the outside (serial text, LED
      writes, delays, calls of the three actuator routines) is appended to
      the world's [trace];
    - [yes()], [no()] and [snake()] only drive the LEDs, the buzzer and the
      servo and touch no variable of the sketch: a call is one trace event. *)

From Stdlib Require Import ZArith List Bool String Lia PeanoNat.
From Stdlib Require Import Strings.Byte.
Import ListNotations.
Open Scope string_scope.
Open Scope list_scope.
Open Scope Z_scope.

(* ------------------------------------------------------------------ *)
(** ** Machine integers *)

Module MachInt.

(** Value of [z] stored in an unsigned variable of [bits] bits. *)
Definition unsigned (bits z : Z) : Z := z mod 2 ^ bits.

(** Value of [z] stored in a two's complement variable of [bits] bits. *)
Definition signed (bits z : Z) : Z :=
  (z + 2 ^ (bits - 1)) mod 2 ^ bits - 2 ^ (bits - 1).

Definition to_byte (z : Z) : Z := unsigned 8 z.
Definition to_int (z : Z) : Z := signed 16 z.
Definition to_long (z : Z) : Z := signed 32 z.
Definition to_ulong (z : Z) : Z := unsigned 32 z.

Definition INT_MAX : Z := 32767.
Definition INT_MIN : Z := -32768.

End MachInt.
Import MachInt.

(* ------------------------------------------------------------------ *)
(** ** Constants of the sketch *)

(** Event types. *)
Definition YES : Z := 1.
Definition NO : Z := 2.
Definition SNAKE : Z := 3.
Definition END : Z := 99.

(** User input commands. *)
Definition RECORD_CMD : Z := 1.
Definition PLAY_CMD : Z := 2.
Definition TRACK_CMD : Z := 3.
Definition YES_CMD : Z := 4.
Definition NO_CMD : Z := 5.
Definition SNAKE_CMD : Z := 6.

Definition RED_LED_pin : Z := 13.
Definition GREEN_LED_pin : Z := 10.

Definition HIGH : bool := true.
Definition LOW : bool := false.

(** The control buttons. *)
Inductive button : Type :=
| RECORD_BUTTON
| PLAY_BUTTON
| TRACK_SELECT_BUTTON
| YES_BUTTON
| NO_BUTTON
| SNAKE_BUTTON.

(** [example_track_1], the factory track: delay, type, delay, type, ... *)
Definition example_track_1 : list Z :=
  [ 56; YES;
    51; YES;
    2; YES;
    72; NO;
    67; NO;
    43; NO;
    55; YES;
    1; YES;
    15; SNAKE;
    0; END ].

(* ------------------------------------------------------------------ *)
(** ** The environment and the world *)

(** Levels of the six button lines at one instant, as [digitalRead] returns
    them.  The lines have pull-ups: [true] (HIGH) is released, [false] (LOW)
    is pressed. *)
Record lines : Type := mkLines {
  record_line : bool;
  play_line : bool;
  track_line : bool;
  yes_line : bool;
  no_line : bool;
  snake_line : bool
}.

Definition all_released : lines := mkLines true true true true true true.

Definition digitalRead (l : lines) (b : button) : bool :=
  match b with
  | RECORD_BUTTON => record_line l
  | PLAY_BUTTON => play_line l
  | TRACK_SELECT_BUTTON => track_line l
  | YES_BUTTON => yes_line l
  | NO_BUTTON => no_line l
  | SNAKE_BUTTON => snake_line l
  end.

(** What the sketch sends to the outside. *)
Inductive event : Type :=
| Serial_text (s : string)            (* Serial.print / println of a literal *)
| Serial_num (n : Z)                  (* Serial.print / println of a number *)
| DigitalWrite (pin : Z) (level : bool)
| Delay (ms : Z)
| Call_yes
| Call_no
| Call_snake.

(** The EEPROM: 1024 cells on the ATmega328, of which the sketch uses
    0 (selected track), 1..1011 at most (tracks) and 1023 (fresh-chip
    mark). *)
Definition eeprom_t : Type := Z -> byte.

Record world : Type := mkWorld {
  eeprom : eeprom_t;
  userInput : Z;                       (* byte userInput *)
  recordButtonCounter : Z;             (* int *)
  incrementTrackButtonCounter : Z;     (* int *)
  pins : list lines;   (* levels seen by the coming calls of check_buttons,
                          one entry a call; all released once it is used up *)
  clock : list Z;      (* values of the coming calls of millis(); the timer
                          is taken as stopped once the list is used up *)
  now : Z;             (* value of the last call of millis() *)
  trace : list event   (* oldest event first *)
}.

Definition set_eeprom (e : eeprom_t) (w : world) : world :=
  mkWorld e (userInput w) (recordButtonCounter w)
          (incrementTrackButtonCounter w) (pins w) (clock w) (now w) (trace w).

Definition emit (es : list event) (w : world) : world :=
  mkWorld (eeprom w) (userInput w) (recordButtonCounter w)
          (incrementTrackButtonCounter w) (pins w) (clock w) (now w)
          (trace w ++ es).

(** Outcome of a routine that may wait for the user or run into undefined
    behaviour. *)
Inductive outcome : Type :=
| Returns (w : world)   (* the routine returns in world [w] *)
| Spins (w : world)     (* the input is used up and the routine still polls *)
| Undefined.            (* control fell off the end of a non-void function *)

Definition bind (o : outcome) (k : world -> outcome) : outcome :=
  match o with
  | Returns w => k w
  | Spins w => Spins w
  | Undefined => Undefined
  end.

Notation "o >>= k" := (bind o k) (at level 50, left associativity).

(* ------------------------------------------------------------------ *)
(** ** EEPROM access *)

Definition byte_of_Z (v : Z) : byte :=
  match Byte.of_N (Z.to_N (to_byte v)) with
  | Some b => b
  | None => x00
  end.

Definition Z_of_byte (b : byte) : Z := Z.of_N (Byte.to_N b).

(** [EEPROM.read(address)]. *)
Definition EEPROM_read (w : world) (address : Z) : Z :=
  Z_of_byte (eeprom w address).

(** [EEPROM.write(address, value)]; [value] is converted to [uint8_t]. *)
Definition EEPROM_write (address value : Z) (w : world) : world :=
  set_eeprom
    (fun a => if a =? address then byte_of_Z value else eeprom w a) w.

(** A chip as it leaves the factory: every cell holds 255. *)
Definition fresh_eeprom : eeprom_t := fun _ => xff.

(* ------------------------------------------------------------------ *)
(** ** LEDs and timer *)

Definition digitalWrite (pin : Z) (level : bool) (w : world) : world :=
  emit [DigitalWrite pin level] w.

Definition delay (ms : Z) (w : world) : world := emit [Delay ms] w.

Definition Serial_print (s : string) (w : world) : world :=
  emit [Serial_text s] w.

Definition Serial_print_num (n : Z) (w : world) : world :=
  emit [Serial_num n] w.

(** [millis()]: an [unsigned long]. *)
Definition millis (w : world) : Z * world :=
  match clock w with
  | [] => (now w, w)
  | t :: rest =>
      (to_ulong t,
       mkWorld (eeprom w) (userInput w) (recordButtonCounter w)
               (incrementTrackButtonCounter w) (pins w) rest (to_ulong t)
               (trace w))
  end.

Definition yes (w : world) : world := emit [Call_yes] w.
Definition no (w : world) : world := emit [Call_no] w.
Definition snake (w : world) : world := emit [Call_snake] w.

Definition blink_led (pin : Z) (w : world) : world :=
  digitalWrite pin LOW (delay 100 (digitalWrite pin HIGH w)).

(** The body of the loop of [blink_track], run [n] times. *)
Fixpoint blink_times (n : nat) (w : world) : world :=
  match n with
  | O => w
  | S n' =>
      blink_times n'
        (delay 500 (digitalWrite RED_LED_pin LOW
           (delay 100 (digitalWrite RED_LED_pin HIGH w))))
  end.

(** [blink_track(times)]; [times] is a byte, so is the loop counter. *)
Definition blink_track (times : Z) (w : world) : world :=
  blink_times (Z.to_nat (to_byte times)) (delay 1000 w).

(* ------------------------------------------------------------------ *)
(** ** Buttons *)

(** The lines as the next call of [check_buttons] sees them. *)
Definition current_lines (w : world) : lines :=
  match pins w with
  | [] => all_released
  | l :: _ => l
  end.

(** [check_buttons()] for levels that do not change during the call;
    [check_buttons_reads] below gives every [digitalRead] of the call its
    own level. *)
Definition check_buttons (w : world) : bool * world :=
  let l := current_lines w in
  let userInput0 := 0 in
  let rc :=
    if Bool.eqb (digitalRead l RECORD_BUTTON) true then 0
    else recordButtonCounter w in
  let tc :=
    if Bool.eqb (digitalRead l TRACK_SELECT_BUTTON) true then 0
    else incrementTrackButtonCounter w in
  let '(ui, rc, tc) :=
    if Bool.eqb (digitalRead l PLAY_BUTTON) false then (PLAY_CMD, rc, tc)
    else if Bool.eqb (digitalRead l RECORD_BUTTON) false
         then (RECORD_CMD, to_int (rc + 1), tc)
    else if Bool.eqb (digitalRead l TRACK_SELECT_BUTTON) false
         then (TRACK_CMD, rc, to_int (tc + 1))
    else if Bool.eqb (digitalRead l YES_BUTTON) false then (YES_CMD, rc, tc)
    else if Bool.eqb (digitalRead l NO_BUTTON) false then (NO_CMD, rc, tc)
    else if Bool.eqb (digitalRead l SNAKE_BUTTON) false then (SNAKE_CMD, rc, tc)
    else (userInput0, rc, tc) in
  (negb (ui =? 0),
   mkWorld (eeprom w) ui rc tc (tl (pins w)) (clock w) (now w) (trace w)).

(** [while (check_buttons() == true);] run for at most [S fuel] calls. *)
Fixpoint wait_release_fuel (fuel : nat) (w : world) : world :=
  let (pressed, w') := check_buttons w in
  if pressed then
    match fuel with
    | O => w'
    | S fuel' => wait_release_fuel fuel' w'
    end
  else w'.

(** [while (check_buttons() == true);] the wait for release.  Past the end
    of [pins] every line is released, so [length (pins w)] further calls are
    enough for the loop to end. *)
Definition wait_release (w : world) : world :=
  wait_release_fuel (List.length (pins w)) w.

(** The levels returned by the eight calls of [digitalRead] in one call of
    [check_buttons], in the order of the source: REC and TRACK SELECT are
    read twice, first for the reset of their counter, then in the chain
    that picks the command.  A read that the chain does not reach is not
    used. *)
Record button_reads : Type := mkReads {
  record_reset_read : bool;   (* if (digitalRead(RECORD_BUTTON) == true) *)
  track_reset_read : bool;    (* if (digitalRead(TRACK_SELECT_BUTTON) == true) *)
  play_read : bool;           (* if (digitalRead(PLAY_BUTTON) == false) *)
  record_read : bool;         (* else if (digitalRead(RECORD_BUTTON) == false) *)
  track_read : bool;          (* else if (digitalRead(TRACK_SELECT_BUTTON) ... *)
  yes_read : bool;
  no_read : bool;
  snake_read : bool
}.

(** [check_buttons()] on its reads, from the counters [rc] (Record) and
    [tc] (SelectTrack): the returned value, [userInput] and the two
    counters after the call. *)
Definition check_buttons_reads (r : button_reads) (rc tc : Z)
    : bool * (Z * Z * Z) :=
  let userInput0 := 0 in
  let rc := if Bool.eqb (record_reset_read r) true then 0 else rc in
  let tc := if Bool.eqb (track_reset_read r) true then 0 else tc in
  let '(ui, rc, tc) :=
    if Bool.eqb (play_read r) false then (PLAY_CMD, rc, tc)
    else if Bool.eqb (record_read r) false
         then (RECORD_CMD, to_int (rc + 1), tc)
    else if Bool.eqb (track_read r) false
         then (TRACK_CMD, rc, to_int (tc + 1))
    else if Bool.eqb (yes_read r) false then (YES_CMD, rc, tc)
    else if Bool.eqb (no_read r) false then (NO_CMD, rc, tc)
    else if Bool.eqb (snake_read r) false then (SNAKE_CMD, rc, tc)
    else (userInput0, rc, tc) in
  (negb (ui =? 0), (ui, rc, tc)).

(** The reads of a call during which the levels [l] do not change. *)
Definition steady_reads (l : lines) : button_reads :=
  mkReads (record_line l) (track_line l) (play_line l) (record_line l)
          (track_line l) (yes_line l) (no_line l) (snake_line l).

(* ------------------------------------------------------------------ *)
(** ** Track regions *)

(** [get_start_mem_location(track)].  The last [if] is the last statement of
    the function: for any other track no [return] is reached. *)
Definition get_start_mem_location (track : Z) : option Z :=
  if track =? 1 then Some 1
  else if track =? 2 then Some 100
  else if track =? 3 then Some 200
  else if track =? 4 then Some 300
  else if track =? 5 then Some 400
  else if track =? 6 then Some 500
  else None.

(* ------------------------------------------------------------------ *)
(** ** Playback *)

(** The [switch (event_type)] of [play_track]. *)
Definition play_event (event_type : Z) (w : world) : world :=
  if event_type =? YES then yes (Serial_print "YES" w)
  else if event_type =? NO then no (Serial_print "NO" w)
  else if event_type =? SNAKE then snake (Serial_print "SNAKE" w)
  else if event_type =? END then Serial_print "END" w
  else Serial_print "Invalid event type!" w.

(** The [for] loop of [play_track] from position [pos] on.  [pos] grows by
    two in every turn, so [start + 100 - pos] turns are always enough. *)
Fixpoint play_from (fuel : nat) (start pos : Z) (w : world) : world :=
  match fuel with
  | O => w
  | S fuel' =>
      if pos <=? to_int (start + 99) then
        let event_delay := to_int (EEPROM_read w pos) in
        let event_type := EEPROM_read w (pos + 1) in
        let w := Serial_print_num event_delay
                   (Serial_print "event_delay: " w) in
        let event_delay := to_int (event_delay * 100) in
        let w := delay (to_ulong event_delay) w in
        let w := play_event event_type w in
        if event_type =? END then w
        else play_from fuel' start (to_int (pos + 2)) w
      else w
  end.

(** [play_track()].  The function is declared [boolean] and returns no
    value; its callers use none. *)
Definition play_track (w : world) : outcome :=
  let track := EEPROM_read w 0 in
  let w := Serial_print_num track (Serial_print "Playing track " w) in
  match get_start_mem_location track with
  | None => Undefined
  | Some start_mem_location =>
      let w := Serial_print_num start_mem_location
                 (Serial_print "start_mem_location: " w) in
      Returns (play_from 100 start_mem_location start_mem_location w)
  end.

(* ------------------------------------------------------------------ *)
(** ** Factory reset and start-up *)

(** The loop of [factory_reset] over [example_track_1] from index [i] on;
    it stops after the first byte equal to [END]. *)
Fixpoint store_example (i : Z) (bytes : list Z) (w : world) : world :=
  match bytes with
  | [] => w
  | b :: rest =>
      let w := EEPROM_write (1 + i) b w in
      if b =? END then w else store_example (i + 1) rest w
  end.

Definition factory_reset (w : world) : world :=
  let w := Serial_print "Factory Reset!!" w in
  let w := blink_led RED_LED_pin w in
  let w := blink_led GREEN_LED_pin w in
  let w := blink_led RED_LED_pin w in
  let w := blink_led GREEN_LED_pin w in
  let w := blink_led RED_LED_pin w in
  let w := blink_led GREEN_LED_pin w in
  let w := EEPROM_write 0 1 w in
  let w := store_example 0 example_track_1 w in
  wait_release w.

(** The check for a fresh chip at the start of [setup]. *)
Definition first_boot (w : world) : world :=
  if EEPROM_read w 1023 =? 255 then EEPROM_write 1023 0 (factory_reset w)
  else w.

(** The loop of [setup] that checks for a manual factory reset.
    [time_pressed] starts at 0 and the loop is left when it reaches 3, so
    three turns are enough. *)
Fixpoint manual_reset (fuel : nat) (time_pressed : Z) (w : world) : world :=
  match fuel with
  | O => w
  | S fuel' =>
      let (pressed, w) := check_buttons w in
      if pressed && (userInput w =? RECORD_CMD) then
        let w := delay 1000 (blink_led RED_LED_pin w) in
        let time_pressed := to_int (time_pressed + 1) in
        if time_pressed =? 3 then factory_reset w
        else manual_reset fuel' time_pressed w
      else w
  end.

(** [setup()], without the pin modes. *)
Definition setup (w : world) : world :=
  let w := Serial_print "OpenSnake Firmware Version 1.0" w in
  let w := digitalWrite 4 LOW w in
  let w := digitalWrite RED_LED_pin LOW w in
  let w := digitalWrite GREEN_LED_pin LOW w in
  let w := digitalWrite 7 LOW w in
  let w := first_boot w in
  let w := manual_reset 3 0 w in
  let track := EEPROM_read w 0 in
  let w := Serial_print_num track (Serial_print "Current track " w) in
  blink_track track w.

(* ------------------------------------------------------------------ *)
(** ** Track selection *)

Definition set_track (track : Z) (w : world) : world :=
  EEPROM_write 0 track w.

Definition increment_track (w : world) : world :=
  let w := Serial_print "Incrementing track..." w in
  let track := EEPROM_read w 0 in
  let track := to_byte (track + 1) in
  let track := if track =? 6 then 1 else track in
  let w := Serial_print_num track (Serial_print "track: " w) in
  let w := blink_track track w in
  set_track track w.

(* ------------------------------------------------------------------ *)
(** ** Recording *)

Definition record_event
    (track event_delay event_type recording_length : Z) (w : world)
    : outcome :=
  match get_start_mem_location track with
  | None => Undefined
  | Some start_mem_location =>
      let offset := to_int (recording_length * 2) in
      let record_to_location := to_int (start_mem_location + offset) in
      let w := EEPROM_write record_to_location event_delay w in
      Returns (EEPROM_write (record_to_location + 1) event_type w)
  end.

(** The delay byte of [record_track]: the time [t] read from [millis()]
    less [last_press_time], in tenths of a second, at most 255. *)
Definition measured_delay (t last_press_time : Z) : Z :=
  let event_delay_long := to_long (to_ulong (t - last_press_time)) in
  let event_delay_long := to_long (Z.quot event_delay_long 100) in
  let event_delay_long :=
    if event_delay_long >? 255 then 255 else event_delay_long in
  to_byte event_delay_long.

(** What [record_track] does with a pressed button: the recorded length
    and whether recording goes on. *)
Definition record_press
    (track event_delay recording_length : Z) (w : world)
    : (Z * bool) * outcome :=
  if userInput w =? YES_CMD then
    ((to_byte (recording_length + 1), true),
     record_event track event_delay YES recording_length
       (Serial_print "YES" w) >>= fun w => Returns (yes w))
  else if userInput w =? NO_CMD then
    ((to_byte (recording_length + 1), true),
     record_event track event_delay NO recording_length
       (Serial_print "NO" w) >>= fun w => Returns (no w))
  else if userInput w =? SNAKE_CMD then
    ((to_byte (recording_length + 1), true),
     record_event track event_delay SNAKE recording_length
       (Serial_print "SNAKE" w) >>= fun w => Returns (snake w))
  else if userInput w =? RECORD_CMD then
    ((recording_length, false),
     record_event track event_delay END recording_length
       (Serial_print "END" w))
  else ((recording_length, true), Returns w).

(** The [while (recording_status == true)] loop of [record_track], for at
    most [fuel] turns. *)
Fixpoint record_loop (fuel : nat) (track last_press_time recording_length : Z)
    (w : world) : outcome :=
  match fuel with
  | O => Spins w
  | S fuel' =>
      let w := digitalWrite RED_LED_pin HIGH w in
      let w := delay 10 w in
      let w := digitalWrite RED_LED_pin LOW w in
      let w := delay 100 w in
      let (t, w) := millis w in
      let event_delay := measured_delay t last_press_time in
      let w := Serial_print_num event_delay (Serial_print "event_delay" w) in
      let (pressed, w) := check_buttons w in
      if pressed then
        let w := digitalWrite RED_LED_pin HIGH w in
        let '((recording_length, recording_status), o) :=
          record_press track event_delay recording_length w in
        o >>= fun w =>
        let w := wait_release w in
        let (t, w) := millis w in
        let last_press_time := to_long t in
        let w := digitalWrite RED_LED_pin LOW w in
        if recording_status
        then record_loop fuel' track last_press_time recording_length w
        else Returns w
      else record_loop fuel' track last_press_time recording_length w
  end.

(** [record_track()].  Every turn of the loop calls [check_buttons] once,
    and past the end of [pins] no button is pressed: if the loop has not
    ended after [length (pins w)] turns it never does. *)
Definition record_track (w : world) : outcome :=
  let w := blink_led RED_LED_pin w in
  let w := wait_release w in
  let track := EEPROM_read w 0 in
  let w := Serial_print_num track (Serial_print "Recording track " w) in
  let (t, w) := millis w in
  let last_press_time := to_long t in
  record_loop (S (List.length (pins w))) track last_press_time 0 w.

(* ------------------------------------------------------------------ *)
(** ** The main loop *)

(** One turn of [loop()]. *)
Definition loop (w : world) : outcome :=
  let (pressed, w) := check_buttons w in
  (if pressed then
     if userInput w =? RECORD_CMD then
       if recordButtonCounter w >? 200 then record_track w else Returns w
     else if userInput w =? PLAY_CMD then play_track w
     else if userInput w =? TRACK_CMD then
       if incrementTrackButtonCounter w >? 200
       then Returns (increment_track w) else Returns w
     else Returns (Serial_print_num (userInput w)
                     (Serial_print "Invalid userInput: " w))
   else Returns w)
  >>= fun w => Returns (delay 10 w).

(** [n] turns of [loop()]. *)
Fixpoint run_loop (n : nat) (w : world) : outcome :=
  match n with
  | O => Returns w
  | S n' => loop w >>= run_loop n'
  end.

(* ------------------------------------------------------------------ *)
(** ** Vocabulary of the properties *)

(** The 100 cells of a track: [start .. start + 99]. *)
Definition in_region (track address : Z) : Prop :=
  match get_start_mem_location track with
  | Some start => start <= address <= start + 99
  | None => False
  end.

(** The pair number [i] of the region that starts at [start]:
    delay byte, type byte. *)
Definition pair_at (w : world) (start : Z) (i : nat) : Z * Z :=
  (EEPROM_read w (start + 2 * Z.of_nat i),
   EEPROM_read w (start + 2 * Z.of_nat i + 1)).

(** What playback sends out for one event type. *)
Definition action_events (event_type : Z) : list event :=
  if event_type =? YES then [Serial_text "YES"; Call_yes]
  else if event_type =? NO then [Serial_text "NO"; Call_no]
  else if event_type =? SNAKE then [Serial_text "SNAKE"; Call_snake]
  else if event_type =? END then [Serial_text "END"]
  else [Serial_text "Invalid event type!"].

(** What playback sends out for one pair: the wait of [delay * 100]
    milliseconds, then the action. *)
Definition pair_events (p : Z * Z) : list event :=
  [Serial_text "event_delay: "; Serial_num (fst p); Delay (fst p * 100)]
  ++ action_events (snd p).

(** What [play_track] sends out before it scans the region. *)
Definition play_header (track start : Z) : list event :=
  [Serial_text "Playing track "; Serial_num track;
   Serial_text "start_mem_location: "; Serial_num start].

(** The pairs number 0 to [n - 1]. *)
Definition first_pairs (w : world) (start : Z) (n : nat) : list (Z * Z) :=
  map (pair_at w start) (seq 0 n).

(** The calls of actuator routines in a trace, in order. *)
Definition actuations (tr : list event) : list event :=
  filter (fun e => match e with
                   | Call_yes | Call_no | Call_snake => true
                   | _ => false
                   end) tr.

(** The waits of a trace in milliseconds, in order. *)
Definition waits (tr : list event) : list Z :=
  flat_map (fun e => match e with Delay ms => [ms] | _ => [] end) tr.

(** The command of a poll by the priority
    Play > Record > SelectTrack > Yes > No > Snake: the command of the first
    button of that order that is pressed, 0 when none is. *)
Definition priority_order : list (button * Z) :=
  [ (PLAY_BUTTON, PLAY_CMD); (RECORD_BUTTON, RECORD_CMD);
    (TRACK_SELECT_BUTTON, TRACK_CMD); (YES_BUTTON, YES_CMD);
    (NO_BUTTON, NO_CMD); (SNAKE_BUTTON, SNAKE_CMD) ].

Definition priority_command (l : lines) : Z :=
  match find (fun bc => negb (digitalRead l (fst bc))) priority_order with
  | Some bc => snd bc
  | None => 0
  end.

(** The same priority on the reads of the chain that picks the command. *)
Definition priority_command_reads (r : button_reads) : Z :=
  match find (fun rc => negb (fst rc))
             [ (play_read r, PLAY_CMD); (record_read r, RECORD_CMD);
               (track_read r, TRACK_CMD); (yes_read r, YES_CMD);
               (no_read r, NO_CMD); (snake_read r, SNAKE_CMD) ] with
  | Some rc => snd rc
  | None => 0
  end.

(** Number of factory resets announced in a trace. *)
Definition is_reset_banner (e : event) : bool :=
  match e with
  | Serial_text s => String.eqb s "Factory Reset!!"
  | _ => false
  end.

Definition resets (tr : list event) : nat :=
  List.length (filter is_reset_banner tr).

(** Whether [record_track] was entered: only it prints this text. *)
Definition is_record_banner (e : event) : bool :=
  match e with
  | Serial_text s => String.eqb s "Recording track "
  | _ => false
  end.

Definition entered_record (tr : list event) : bool :=
  existsb is_record_banner tr.

Definition outcome_trace (o : outcome) : list event :=
  match o with
  | Returns w => trace w
  | Spins w => trace w
  | Undefined => []
  end.

(** Only button [b] pressed. *)
Definition only (b : button) : lines :=
  mkLines (match b with RECORD_BUTTON => false | _ => true end)
          (match b with PLAY_BUTTON => false | _ => true end)
          (match b with TRACK_SELECT_BUTTON => false | _ => true end)
          (match b with YES_BUTTON => false | _ => true end)
          (match b with NO_BUTTON => false | _ => true end)
          (match b with SNAKE_BUTTON => false | _ => true end).

(** A world just after start-up (globals at their initial values) with
    EEPROM [e], in which the user holds REC alone during the first [ticks]
    polls and then lets go. *)
Definition hold_record (e : eeprom_t) (ticks : nat) : world :=
  mkWorld e 0 0 0 (repeat (only RECORD_BUTTON) ticks) [] 0 [].

(** The EEPROM after a factory reset of a fresh chip. *)
Definition factory_eeprom : eeprom_t :=
  eeprom (first_boot (mkWorld fresh_eeprom 0 0 0 [] [] 0 [])).

(* ------------------------------------------------------------------ *)
(** ** Recording sessions *)

(** One press as [record_track] meets it. *)
Record press : Type := mkPress {
  idle : list Z;          (* timer values read in the turns of the loop that
                             find every button released, before the press *)
  pressed_at : Z;         (* timer value read in the turn that finds it *)
  pressed_lines : lines;  (* levels in that turn *)
  held : list lines;      (* levels seen while waiting for the release *)
  released_at : Z         (* timer value read after the release *)
}.

Definition press_pins (p : press) : list lines :=
  repeat all_released (List.length (idle p))
  ++ pressed_lines p :: held p ++ [all_released].

Definition press_clock (p : press) : list Z :=
  idle p ++ [pressed_at p; released_at p].

(** A recording session: REC may still be down when [record_track] starts,
    then come the presses, then the press of REC that ends it. *)
Record session : Type := mkSession {
  still_held : list lines;
  started_at : Z;         (* timer value read when recording starts *)
  presses : list press;
  stop : press
}.

Definition session_pins (s : session) : list lines :=
  still_held s ++ all_released
  :: flat_map press_pins (presses s) ++ press_pins (stop s).

Definition session_clock (s : session) : list Z :=
  started_at s :: flat_map press_clock (presses s) ++ press_clock (stop s).

(** Event type recorded for a command. *)
Definition kind_of_command (c : Z) : Z :=
  if c =? YES_CMD then YES
  else if c =? NO_CMD then NO
  else if c =? SNAKE_CMD then SNAKE
  else END.

(** Actuator routine of an event type. *)
Definition call_of_kind (k : Z) : list event :=
  if k =? YES then [Call_yes]
  else if k =? NO then [Call_no]
  else if k =? SNAKE then [Call_snake]
  else [].

(** Milliseconds to tenths of a second, at most 255. *)
Definition clamped_tenths (elapsed_ms : Z) : Z :=
  Z.min (elapsed_ms / 100) 255.

(** The (delay, type) pairs of the presses [ps]; [since] is the timer value
    at the start of the session or after the release of the press before. *)
Fixpoint pressed_pairs (since : Z) (ps : list press) : list (Z * Z) :=
  match ps with
  | [] => []
  | p :: rest =>
      (clamped_tenths (pressed_at p - since),
       kind_of_command (priority_command (pressed_lines p)))
      :: pressed_pairs (released_at p) rest
  end.

Definition is_pressed (l : lines) : Prop := priority_command l <> 0.

(** A press of YES, NO or SNAKE, less than [2 ^ 31] ms after [since]. *)
Definition press_ok (since : Z) (p : press) : Prop :=
  0 <= pressed_at p - since < 2 ^ 31 /\
  (priority_command (pressed_lines p) = YES_CMD \/
   priority_command (pressed_lines p) = NO_CMD \/
   priority_command (pressed_lines p) = SNAKE_CMD) /\
  Forall is_pressed (held p).

Fixpoint presses_ok (since : Z) (ps : list press) : Prop :=
  match ps with
  | [] => True
  | p :: rest => press_ok since p /\ presses_ok (released_at p) rest
  end.

Definition session_ok (s : session) : Prop :=
  Forall is_pressed (still_held s) /\
  presses_ok (started_at s) (presses s) /\
  priority_command (pressed_lines (stop s)) = RECORD_CMD /\
  Forall is_pressed (held (stop s)).

(** The EEPROM after the two writes of [record_event] for the pair that
    starts at cell [a]. *)
Definition with_pair (a d k : Z) (w : world) : world :=
  EEPROM_write (a + 1) k (EEPROM_write a d w).

(** The EEPROM after the pairs [ps] are written one after the other from
    cell [a] on. *)
Fixpoint with_pairs (a : Z) (ps : list (Z * Z)) (w : world) : world :=
  match ps with
  | [] => w
  | p :: rest => with_pairs (a + 2) rest (with_pair a (fst p) (snd p) w)
  end.

(** A pair of two byte values. *)
Definition byte_pair (p : Z * Z) : Prop :=
  0 <= fst p <= 255 /\ 0 <= snd p <= 255.

(** Timer value after the release of the last press of [ps]. *)
Fixpoint last_release (since : Z) (ps : list press) : Z :=
  match ps with
  | [] => since
  | p :: rest => last_release (released_at p) rest
  end.

(** What playback sends out when [play_track] is called right after
    [record_track] has returned. *)
Definition playback_after_recording (w : world) : option (list event) :=
  match record_track w with
  | Returns w1 =>
      match play_track w1 with
      | Returns w2 => Some (skipn (List.length (trace w1)) (trace w2))
      | _ => None
      end
  | _ => None
  end.

(** The session of the user who starts at 1.0 s, presses YES at 6.3 s for
    0.8 s, YES again 5.1 s later and REC 0.2 s after that. *)
Definition two_yes_session : session :=
  mkSession [only RECORD_BUTTON] 1000
    [ mkPress [1110] 6300 (only YES_BUTTON) [only YES_BUTTON] 7100;
      mkPress [] 12200 (only YES_BUTTON) [] 13000 ]
    (mkPress [] 13200 (only RECORD_BUTTON) [] 13300).

(** The session number [i] of a user who presses YES once a second. *)
Definition yes_press (i : nat) : press :=
  mkPress [] (1000 * Z.of_nat i + 1500) (only YES_BUTTON) []
          (1000 * Z.of_nat i + 2000).

(** [n] presses of YES, then REC. *)
Definition yes_session (n : nat) : session :=
  mkSession [] 1000 (map yes_press (seq 0 n))
    (mkPress [] (1000 * Z.of_nat n + 1500) (only RECORD_BUTTON) []
             (1000 * Z.of_nat n + 2000)).

(** The world in which session [s] is recorded on a chip with EEPROM [e]. *)
Definition session_world (e : eeprom_t) (s : session) : world :=
  mkWorld e 0 0 0 (session_pins s) (session_clock s) 0 [].

(** The same chip with track [t] selected. *)
Definition select (t : Z) (e : eeprom_t) : eeprom_t :=
  fun a => if a =? 0 then byte_of_Z t else e a.

(* ------------------------------------------------------------------ *)
(** ** Vocabulary of the further properties *)

(** Cell 0 and the cells of track 1 as [factory_reset] leaves them. *)
Definition factory_cells : list Z := 1 :: example_track_1.

(** The pairs of [example_track_1]. *)
Fixpoint pairs_of (bytes : list Z) : list (Z * Z) :=
  match bytes with
  | d :: k :: rest => (d, k) :: pairs_of rest
  | _ => []
  end.



(** Whether the poll with levels [l] reports Record. *)
Definition reports_record (l : lines) : bool :=
  priority_command l =? RECORD_CMD.

(** What a turn of the playback loop sends out for the bytes [d] and [k]
    of a pair, in the arithmetic of the loop. *)
Definition pair_events_raw (d k : Z) : list event :=
  [Serial_text "event_delay: "; Serial_num (to_int d);
   Delay (to_ulong (to_int (to_int d * 100)))]
  ++ action_events k.

(** Whether the first three polls of a world all report Record. *)
Definition three_record_polls (w : world) : bool :=
  match pins w with
  | l1 :: l2 :: l3 :: _ =>
      reports_record l1 && reports_record l2 && reports_record l3
  | _ => false
  end.

(** The track number that [increment_track] writes when cell 0 holds [v]. *)
Definition next_track (v : Z) : Z :=
  if v =? 5 then 1 else if v =? 255 then 0 else v + 1.

(* ================================================================== *)
(** * Properties *)

(* ------------------------------------------------------------------ *)
(** ** Machine integers and bytes *)

Lemma unsigned_small (bits z : Z) :
  0 <= bits -> 0 <= z < 2 ^ bits -> unsigned bits z = z.
Proof. intros _ Hz. unfold unsigned. now apply Z.mod_small. Qed.

Lemma to_byte_small (z : Z) : 0 <= z <= 255 -> to_byte z = z.
Proof.
  intros Hz. unfold to_byte, unsigned.
  change (2 ^ 8) with 256. apply Z.mod_small. lia.
Qed.

Lemma to_byte_range (z : Z) : 0 <= to_byte z <= 255.
Proof.
  unfold to_byte, unsigned. change (2 ^ 8) with 256.
  pose proof (Z.mod_pos_bound z 256). lia.
Qed.

Lemma to_int_small (z : Z) : INT_MIN <= z <= INT_MAX -> to_int z = z.
Proof.
  unfold INT_MIN, INT_MAX, to_int, signed.
  change (2 ^ (16 - 1)) with 32768. change (2 ^ 16) with 65536.
  intros Hz. rewrite Z.mod_small; lia.
Qed.

Lemma to_long_small (z : Z) : - 2 ^ 31 <= z < 2 ^ 31 -> to_long z = z.
Proof.
  unfold to_long, signed.
  change (2 ^ (32 - 1)) with 2147483648. change (2 ^ 32) with 4294967296.
  change (2 ^ 31) with 2147483648.
  intros Hz. rewrite Z.mod_small; lia.
Qed.

Lemma to_ulong_small (z : Z) : 0 <= z < 2 ^ 32 -> to_ulong z = z.
Proof. intros Hz. unfold to_ulong. apply unsigned_small; lia. Qed.

Lemma Z_of_byte_range (b : byte) : 0 <= Z_of_byte b <= 255.
Proof.
  unfold Z_of_byte. pose proof (Byte.to_N_bounded b) as Hb.
  lia.
Qed.

Lemma Z_of_byte_of_Z (v : Z) : Z_of_byte (byte_of_Z v) = to_byte v.
Proof.
  unfold Z_of_byte, byte_of_Z.
  pose proof (to_byte_range v) as Hv.
  destruct (Byte.of_N (Z.to_N (to_byte v))) as [b|] eqn:Hb.
  - apply Byte.to_of_N in Hb. rewrite Hb. lia.
  - apply Byte.of_N_None_iff in Hb. lia.
Qed.

(* ------------------------------------------------------------------ *)
(** ** EEPROM and trace *)

Lemma EEPROM_read_range (w : world) (a : Z) : 0 <= EEPROM_read w a <= 255.
Proof. apply Z_of_byte_range. Qed.

Lemma EEPROM_read_write_same (w : world) (a v : Z) :
  EEPROM_read (EEPROM_write a v w) a = to_byte v.
Proof.
  unfold EEPROM_read, EEPROM_write, set_eeprom. cbn.
  rewrite Z.eqb_refl. apply Z_of_byte_of_Z.
Qed.

Lemma EEPROM_read_write_other (w : world) (a b v : Z) :
  b <> a -> EEPROM_read (EEPROM_write a v w) b = EEPROM_read w b.
Proof.
  intros Hab. unfold EEPROM_read, EEPROM_write, set_eeprom. cbn.
  destruct (Z.eqb_spec b a); [contradiction | reflexivity].
Qed.

Lemma EEPROM_write_trace (a v : Z) (w : world) :
  trace (EEPROM_write a v w) = trace w.
Proof. reflexivity. Qed.

Lemma EEPROM_write_pins (a v : Z) (w : world) :
  pins (EEPROM_write a v w) = pins w.
Proof. reflexivity. Qed.

Lemma EEPROM_read_emit (es : list event) (w : world) (a : Z) :
  EEPROM_read (emit es w) a = EEPROM_read w a.
Proof. reflexivity. Qed.

Lemma emit_emit (es1 es2 : list event) (w : world) :
  emit es2 (emit es1 w) = emit (es1 ++ es2) w.
Proof. unfold emit. cbn. now rewrite app_assoc. Qed.

Lemma emit_nil (w : world) : emit [] w = w.
Proof. destruct w. unfold emit. cbn. now rewrite app_nil_r. Qed.

(* ------------------------------------------------------------------ *)
(** ** Track regions *)

Lemma get_start_mem_location_some (track start : Z) :
  get_start_mem_location track = Some start ->
  1 <= track <= 6 /\ 1 <= start <= 500 /\
  start = (if track =? 1 then 1 else (track - 1) * 100).
Proof.
  unfold get_start_mem_location.
  repeat match goal with
         | |- context [?a =? ?b] => destruct (Z.eqb_spec a b); subst
         end; intros H; inversion H; subst; cbn; lia.
Qed.

(** Apart from tracks 1 and 2, the regions of two tracks share no cell. *)
Lemma regions_disjoint_apart_from_1_2 (t1 t2 a : Z) :
  t1 < t2 -> (t1, t2) <> (1, 2) ->
  in_region t1 a -> in_region t2 a -> False.
Proof.
  unfold in_region. intros Hlt Hne H1 H2.
  destruct (get_start_mem_location t1) as [s1|] eqn:E1; [|contradiction].
  destruct (get_start_mem_location t2) as [s2|] eqn:E2; [|contradiction].
  apply get_start_mem_location_some in E1, E2.
  destruct E1 as (R1 & _ & ->), E2 as (R2 & _ & ->).
  destruct (Z.eqb_spec t1 1), (Z.eqb_spec t2 1); subst; try lia.
  assert (t2 <> 2) by (intros ->; now apply Hne).
  lia.
Qed.

(** C10: [get_start_mem_location] returns 1, 100, 200, 300, 400, 500 for
    the tracks 1 to 6 and reaches no [return] for any other track; with
    such a track in cell 0, [play_track] has no region to play and
    [record_event] none to write to. *)
Theorem get_start_mem_location_only_1_to_6 :
  map get_start_mem_location [1; 2; 3; 4; 5; 6]
  = [Some 1; Some 100; Some 200; Some 300; Some 400; Some 500] /\
  forall track : Z,
    ~ 1 <= track <= 6 ->
    get_start_mem_location track = None /\
    (forall w, EEPROM_read w 0 = track -> play_track w = Undefined) /\
    (forall delay_byte kind len w,
        record_event track delay_byte kind len w = Undefined).
Proof.
  split; [reflexivity|].
  intros track Htrack.
  assert (Hnone : get_start_mem_location track = None).
  { unfold get_start_mem_location.
    repeat match goal with
           | |- context [?a =? ?b] => destruct (Z.eqb_spec a b); [lia|]
           end.
    reflexivity. }
  split; [exact Hnone|]. split.
  - intros w Hw. unfold play_track. rewrite Hw, Hnone. reflexivity.
  - intros d k len w. unfold record_event. now rewrite Hnone.
Qed.

Lemma get_start_mem_location_only_1_to_6_witness :
  get_start_mem_location 255 = None /\
  play_track (mkWorld fresh_eeprom 0 0 0 [] [] 0 []) = Undefined.
Proof.
  assert (H : ~ 1 <= 255 <= 6) by lia.
  destruct (proj2 get_start_mem_location_only_1_to_6 255 H) as (H1 & H2 & _).
  split; [exact H1|]. apply H2. reflexivity.
Defined.

(** C3: the regions of tracks 1 and 2 are not disjoint.  Track 1 starts at
    cell 1, so its 100 cells end at cell 100, which is also the first cell
    of track 2: the type byte of the 50th event of track 1 and the delay
    byte of the first event of track 2 are one cell. *)
Theorem tracks_1_and_2_share_cell_100 :
  in_region 1 100 /\ in_region 2 100 /\
  forall (w : world) (delay_byte kind : Z),
    (exists w1, record_event 1 delay_byte kind 49 w = Returns w1 /\
                EEPROM_read w1 100 = to_byte kind) /\
    (exists w2, record_event 2 delay_byte kind 0 w = Returns w2 /\
                EEPROM_read w2 100 = to_byte delay_byte).
Proof.
  split; [cbn; lia|]. split; [cbn; lia|].
  intros w d k. split.
  - eexists. split; [reflexivity|]. cbn.
    apply EEPROM_read_write_same.
  - eexists. split; [reflexivity|]. cbn.
    rewrite EEPROM_read_write_other by lia.
    apply EEPROM_read_write_same.
Qed.

(* ------------------------------------------------------------------ *)
(** ** Track selection *)

Lemma blink_times_eeprom (n : nat) (w : world) :
  eeprom (blink_times n w) = eeprom w.
Proof.
  revert w. induction n as [|n IH]; intros w; cbn; [reflexivity|].
  now rewrite IH.
Qed.

Lemma EEPROM_read_blink_track (times : Z) (w : world) (a : Z) :
  EEPROM_read (blink_track times w) a = EEPROM_read w a.
Proof.
  unfold EEPROM_read, blink_track. now rewrite blink_times_eeprom.
Qed.

Lemma increment_track_cell_0 (w : world) :
  EEPROM_read (increment_track w) 0
  = (if to_byte (EEPROM_read w 0 + 1) =? 6 then 1
     else to_byte (EEPROM_read w 0 + 1)).
Proof.
  unfold increment_track, set_track.
  rewrite EEPROM_read_write_same.
  change (EEPROM_read (Serial_print "Incrementing track..." w) 0)
    with (EEPROM_read w 0).
  destruct (Z.eqb_spec (to_byte (EEPROM_read w 0 + 1)) 6).
  - reflexivity.
  - apply to_byte_small. apply to_byte_range.
Qed.

Lemma increment_track_other_cells (w : world) (a : Z) :
  a <> 0 -> EEPROM_read (increment_track w) a = EEPROM_read w a.
Proof.
  intros Ha. unfold increment_track, set_track.
  rewrite EEPROM_read_write_other by exact Ha.
  now rewrite EEPROM_read_blink_track.
Qed.

Lemma increment_track_step (w : world) (s : Z) :
  EEPROM_read w 0 = s -> 1 <= s <= 5 ->
  EEPROM_read (increment_track w) 0 = (if s =? 5 then 1 else s + 1).
Proof.
  intros Hs Hr. rewrite increment_track_cell_0, Hs.
  rewrite to_byte_small by lia.
  destruct (Z.eqb_spec (s + 1) 6), (Z.eqb_spec s 5); lia.
Qed.

(** C5: on the tracks 1 to 5 [increment_track] is a bijection: it takes 5
    to 1 and every other track to the next one, stays within 1..5, takes
    two different tracks to different tracks, reaches every track, and five
    calls come back to the track they started from; the new track is
    written to cell 0 and no other cell changes. *)
Theorem increment_track_cycles_1_to_5 (w : world) (s : Z) :
  EEPROM_read w 0 = s -> 1 <= s <= 5 ->
  EEPROM_read (increment_track w) 0 = (if s =? 5 then 1 else s + 1) /\
  1 <= EEPROM_read (increment_track w) 0 <= 5 /\
  EEPROM_read (Nat.iter 5 increment_track w) 0 = s /\
  (forall w', 1 <= EEPROM_read w' 0 <= 5 ->
     EEPROM_read (increment_track w') 0 = EEPROM_read (increment_track w) 0 ->
     EEPROM_read w' 0 = s) /\
  (exists s', 1 <= s' <= 5 /\
     forall w', EEPROM_read w' 0 = s' ->
       EEPROM_read (increment_track w') 0 = s) /\
  (forall a, a <> 0 -> EEPROM_read (increment_track w) a = EEPROM_read w a).
Proof.
  intros Hs Hr.
  pose proof (increment_track_step w s Hs Hr) as H1.
  split; [exact H1|]. split.
  { rewrite H1. destruct (Z.eqb_spec s 5); lia. }
  split.
  { assert (Hcases : s = 1 \/ s = 2 \/ s = 3 \/ s = 4 \/ s = 5) by lia.
    change (Nat.iter 5 increment_track w)
      with (increment_track (increment_track (increment_track
             (increment_track (increment_track w))))).
    destruct Hcases as [E|[E|[E|[E|E]]]]; subst s;
      rewrite E in H1; cbn in H1;
      pose proof (increment_track_step _ _ H1 ltac:(lia)) as H2; cbn in H2;
      pose proof (increment_track_step _ _ H2 ltac:(lia)) as H3; cbn in H3;
      pose proof (increment_track_step _ _ H3 ltac:(lia)) as H4; cbn in H4;
      pose proof (increment_track_step _ _ H4 ltac:(lia)) as H5; cbn in H5;
      congruence. }
  split.
  { intros w' Hr' Heq.
    rewrite (increment_track_step w' _ eq_refl Hr'), H1 in Heq.
    destruct (Z.eqb_spec (EEPROM_read w' 0) 5), (Z.eqb_spec s 5); lia. }
  split.
  { exists (if s =? 1 then 5 else s - 1). split.
    - destruct (Z.eqb_spec s 1); lia.
    - intros w' Hw'. rewrite (increment_track_step w' _ Hw').
      + destruct (Z.eqb_spec s 1) as [E|E].
        * cbn. lia.
        * destruct (Z.eqb_spec (s - 1) 5); lia.
      + destruct (Z.eqb_spec s 1); lia. }
  intros a Ha. now apply increment_track_other_cells.
Qed.

Lemma increment_track_cycles_1_to_5_witness :
  EEPROM_read
    (increment_track (mkWorld (select 5 factory_eeprom) 0 0 0 [] [] 0 [])) 0
  = 1.
Proof.
  apply (proj1 (increment_track_cycles_1_to_5
                  (mkWorld (select 5 factory_eeprom) 0 0 0 [] [] 0 []) 5
                  eq_refl ltac:(lia))).
Defined.

(* ------------------------------------------------------------------ *)
(** ** Buttons *)

Lemma check_buttons_userInput (w : world) :
  userInput (snd (check_buttons w)) = priority_command (current_lines w).
Proof.
  unfold check_buttons, priority_command.
  destruct (current_lines w) as [[] [] [] [] [] []]; reflexivity.
Qed.

Lemma check_buttons_pressed (w : world) :
  fst (check_buttons w) = negb (priority_command (current_lines w) =? 0).
Proof.
  unfold check_buttons, priority_command.
  destruct (current_lines w) as [[] [] [] [] [] []]; reflexivity.
Qed.

(** The counters after a poll, in [int] arithmetic. *)
Lemma check_buttons_counters (w : world) :
  let l := current_lines w in
  let w' := snd (check_buttons w) in
  recordButtonCounter w'
  = (if digitalRead l RECORD_BUTTON then 0
     else if userInput w' =? RECORD_CMD
          then to_int (recordButtonCounter w + 1)
          else recordButtonCounter w) /\
  incrementTrackButtonCounter w'
  = (if digitalRead l TRACK_SELECT_BUTTON then 0
     else if userInput w' =? TRACK_CMD
          then to_int (incrementTrackButtonCounter w + 1)
          else incrementTrackButtonCounter w).
Proof.
  unfold check_buttons.
  destruct (current_lines w) as [[] [] [] [] [] []]; cbn; split; reflexivity.
Qed.

Lemma check_buttons_keeps (w : world) :
  eeprom (snd (check_buttons w)) = eeprom w /\
  trace (snd (check_buttons w)) = trace w /\
  clock (snd (check_buttons w)) = clock w /\
  now (snd (check_buttons w)) = now w /\
  pins (snd (check_buttons w)) = tl (pins w).
Proof.
  unfold check_buttons.
  destruct (current_lines w) as [[] [] [] [] [] []]; cbn; repeat split.
Qed.

Lemma priority_command_range (l : lines) : 0 <= priority_command l <= 6.
Proof.
  destruct l as [[] [] [] [] [] []]; vm_compute; split; intros H;
    discriminate H.
Qed.

Lemma priority_command_0 (l : lines) :
  priority_command l = 0 -> l = all_released.
Proof.
  destruct l as [[] [] [] [] [] []]; intros H; vm_compute in H;
    solve [reflexivity | discriminate H].
Qed.

(** [check_buttons] is [check_buttons_reads] on steady levels. *)
Lemma check_buttons_steady (w : world) :
  check_buttons w
  = match check_buttons_reads (steady_reads (current_lines w))
            (recordButtonCounter w) (incrementTrackButtonCounter w) with
    | (pressed, (ui, rc, tc)) =>
        (pressed,
         mkWorld (eeprom w) ui rc tc (tl (pins w)) (clock w) (now w)
                 (trace w))
    end.
Proof.
  unfold check_buttons, check_buttons_reads, steady_reads.
  destruct (current_lines w) as [[] [] [] [] [] []]; reflexivity.
Qed.

(** C6 as stated fails at the end of the range of [int]: a poll that
    reports Record with the counter at 32767 leaves it at -32768, not one
    higher. *)
Lemma record_counter_wraps_at_32767 :
  userInput
    (snd (check_buttons
            (mkWorld fresh_eeprom 0 32767 0 [only RECORD_BUTTON] [] 0 [])))
  = RECORD_CMD /\
  recordButtonCounter
    (snd (check_buttons
            (mkWorld fresh_eeprom 0 32767 0 [only RECORD_BUTTON] [] 0 [])))
  = -32768 /\
  recordButtonCounter
    (snd (check_buttons
            (mkWorld fresh_eeprom 0 32767 0 [only RECORD_BUTTON] [] 0 [])))
  <> 32767 + 1.
Proof. vm_compute. repeat split; discriminate. Qed.

(** C6 (amended): a poll reports one command at most, the one of the first
    button read as pressed in the order Play, Record, SelectTrack, Yes, No,
    Snake.  The hold counter of Record (of SelectTrack) is first set to
    zero when the first read of its line finds it released, and then grows
    by one, in the 16 bits of an [int], exactly when the poll reports
    Record (SelectTrack).  When the two reads of the line agree, this is:
    zero when released, one more when the poll reports its command (below
    32767; from 32767 the counter goes to -32768), unchanged when a command
    of higher priority is reported. *)
Theorem check_buttons_reads_priority_and_counters
    (r : button_reads) (rc tc : Z) :
  let pressed := fst (check_buttons_reads r rc tc) in
  let ui := fst (fst (snd (check_buttons_reads r rc tc))) in
  let rc' := snd (fst (snd (check_buttons_reads r rc tc))) in
  let tc' := snd (snd (check_buttons_reads r rc tc)) in
  ui = priority_command_reads r /\
  pressed = negb (ui =? 0) /\
  rc' = (let rc0 := if record_reset_read r then 0 else rc in
         if ui =? RECORD_CMD then to_int (rc0 + 1) else rc0) /\
  tc' = (let tc0 := if track_reset_read r then 0 else tc in
         if ui =? TRACK_CMD then to_int (tc0 + 1) else tc0) /\
  (ui = RECORD_CMD -> record_read r = false) /\
  (ui = TRACK_CMD -> track_read r = false) /\
  (record_reset_read r = record_read r ->
   rc' = (if record_read r then 0
          else if ui =? RECORD_CMD then to_int (rc + 1) else rc) /\
   (INT_MIN <= rc < INT_MAX ->
    rc' = (if record_read r then 0
           else if ui =? RECORD_CMD then rc + 1 else rc))) /\
  (track_reset_read r = track_read r ->
   tc' = (if track_read r then 0
          else if ui =? TRACK_CMD then to_int (tc + 1) else tc) /\
   (INT_MIN <= tc < INT_MAX ->
    tc' = (if track_read r then 0
           else if ui =? TRACK_CMD then tc + 1 else tc))).
Proof.
  cbv zeta. unfold check_buttons_reads, priority_command_reads.
  destruct r as [r1 t1 p r2 t2 y n sn].
  cbn [record_reset_read track_reset_read play_read record_read track_read
       yes_read no_read snake_read].
  assert (Hrc : INT_MIN <= rc < INT_MAX -> to_int (rc + 1) = rc + 1)
    by (intros H; apply to_int_small; unfold INT_MIN, INT_MAX in *; lia).
  assert (Htc : INT_MIN <= tc < INT_MAX -> to_int (tc + 1) = tc + 1)
    by (intros H; apply to_int_small; unfold INT_MIN, INT_MAX in *; lia).
  destruct r1, t1, p, r2, t2, y, n, sn; cbn;
    repeat match goal with
           | |- _ /\ _ => split
           | |- _ -> _ => intros ?
           end;
    solve [ reflexivity | discriminate | auto ].
Qed.

Lemma check_buttons_reads_priority_and_counters_witness :
  snd (fst (snd (check_buttons_reads
                   (steady_reads (mkLines false true true false true true))
                   7 9)))
  = 8.
Proof.
  refine (proj2 (proj1 (proj2 (proj2 (proj2 (proj2 (proj2 (proj2
            (check_buttons_reads_priority_and_counters
               (steady_reads (mkLines false true true false true true))
               7 9)))))))
            eq_refl) _).
  unfold INT_MIN, INT_MAX. lia.
Defined.

(* ------------------------------------------------------------------ *)
(** ** Playback *)

Lemma play_event_events (k : Z) (w : world) :
  play_event k w = emit (action_events k) w.
Proof.
  unfold play_event, action_events, yes, no, snake, Serial_print.
  repeat match goal with
         | |- context [?a =? ?b] => destruct (Z.eqb_spec a b)
         end; now rewrite ?emit_emit.
Qed.

(** One turn of the loop of [play_track] at a position of the region. *)
Lemma play_from_step (fuel : nat) (start pos : Z) (w : world) :
  1 <= start <= 500 -> start <= pos <= start + 99 ->
  play_from (S fuel) start pos w
  = let p := (EEPROM_read w pos, EEPROM_read w (pos + 1)) in
    if snd p =? END then emit (pair_events p) w
    else play_from fuel start (pos + 2) (emit (pair_events p) w).
Proof.
  intros Hs Hp.
  pose proof (EEPROM_read_range w pos) as Hd.
  cbn [play_from].
  rewrite (to_int_small (start + 99)) by (unfold INT_MIN, INT_MAX; lia).
  destruct (Z.leb_spec pos (start + 99)); [|lia].
  rewrite (to_int_small (EEPROM_read w pos))
    by (unfold INT_MIN, INT_MAX; lia).
  rewrite (to_int_small (EEPROM_read w pos * 100))
    by (unfold INT_MIN, INT_MAX; lia).
  rewrite to_ulong_small by (change (2 ^ 32) with 4294967296; lia).
  rewrite (to_int_small (pos + 2)) by (unfold INT_MIN, INT_MAX; lia).
  rewrite play_event_events.
  unfold delay, Serial_print_num, Serial_print, pair_events.
  rewrite !emit_emit. cbn [fst snd app].
  change (EEPROM_read
            (emit [Serial_text "event_delay: "; Serial_num (EEPROM_read w pos);
                   Delay (EEPROM_read w pos * 100)] w) (pos + 1))
    with (EEPROM_read w (pos + 1)).
  reflexivity.
Qed.

Lemma play_from_past_end (fuel : nat) (start pos : Z) (w : world) :
  1 <= start <= 500 -> start + 99 < pos -> play_from fuel start pos w = w.
Proof.
  intros Hs Hp. destruct fuel as [|fuel]; [reflexivity|].
  cbn [play_from].
  rewrite (to_int_small (start + 99)) by (unfold INT_MIN, INT_MAX; lia).
  destruct (Z.leb_spec pos (start + 99)); [lia | reflexivity].
Qed.

Lemma pair_at_emit (es : list event) (w : world) (start : Z) (i : nat) :
  pair_at (emit es w) start i = pair_at w start i.
Proof. reflexivity. Qed.

(** [m] turns of the loop over pairs that are not [END]. *)
Lemma play_from_run (w : world) (start : Z) (m : nat) :
  1 <= start <= 500 ->
  forall (i fuel : nat) (es : list event),
    (i + m <= 50)%nat -> (m <= fuel)%nat ->
    (forall j, (i <= j < i + m)%nat -> snd (pair_at w start j) <> END) ->
    play_from fuel start (start + 2 * Z.of_nat i) (emit es w)
    = play_from (fuel - m) start (start + 2 * Z.of_nat (i + m))
        (emit (es ++ flat_map pair_events (map (pair_at w start) (seq i m)))
              w).
Proof.
  intros Hs. induction m as [|m IH]; intros i fuel es Him Hfuel Hno.
  - cbn. now rewrite Nat.sub_0_r, Nat.add_0_r, app_nil_r.
  - destruct fuel as [|fuel]; [lia|].
    rewrite play_from_step by lia.
    cbn zeta. cbn [snd].
    change (EEPROM_read (emit es w)) with (EEPROM_read w).
    change (EEPROM_read w (start + 2 * Z.of_nat i),
            EEPROM_read w (start + 2 * Z.of_nat i + 1))
      with (pair_at w start i).
    pose proof (Hno i ltac:(lia)) as Hi. unfold pair_at in Hi. cbn [snd] in Hi.
    destruct (Z.eqb_spec (EEPROM_read w (start + 2 * Z.of_nat i + 1)) END)
      as [E|_]; [contradiction|].
    rewrite emit_emit.
    replace (start + 2 * Z.of_nat i + 2)
      with (start + 2 * Z.of_nat (S i)) by lia.
    rewrite IH; [| lia | lia | intros j Hj; apply Hno; lia].
    cbn [seq map flat_map]. rewrite <- app_assoc.
    replace (S i + m)%nat with (i + S m)%nat by lia.
    reflexivity.
Qed.

Lemma actuations_app (a b : list event) :
  actuations (a ++ b) = actuations a ++ actuations b.
Proof. unfold actuations. apply filter_app. Qed.

Lemma actuations_pair_events (p : Z * Z) :
  actuations (pair_events p) = call_of_kind (snd p).
Proof.
  unfold pair_events, action_events, call_of_kind. cbn.
  repeat match goal with
         | |- context [?a =? ?b] => destruct (Z.eqb_spec a b)
         end; reflexivity.
Qed.

Lemma actuations_pairs (ps : list (Z * Z)) :
  actuations (flat_map pair_events ps)
  = flat_map (fun p => call_of_kind (snd p)) ps.
Proof.
  induction ps as [|p ps IH]; [reflexivity|].
  cbn [flat_map]. now rewrite actuations_app, actuations_pair_events, IH.
Qed.

Lemma first_pairs_S (w : world) (start : Z) (n : nat) :
  first_pairs w start (S n) = first_pairs w start n ++ [pair_at w start n].
Proof.
  unfold first_pairs. rewrite seq_S, map_app. reflexivity.
Qed.

(** Playback of a region whose first [END] is in pair [n]. *)
Lemma play_from_to_END (w : world) (start : Z) (n fuel : nat) :
  1 <= start <= 500 -> (n < 50)%nat -> (n < fuel)%nat ->
  snd (pair_at w start n) = END ->
  (forall i, (i < n)%nat -> snd (pair_at w start i) <> END) ->
  forall es,
    play_from fuel start start (emit es w)
    = emit (es ++ flat_map pair_events (first_pairs w start (S n))) w.
Proof.
  intros Hs Hn Hfuel Hend Hno es.
  replace start with (start + 2 * Z.of_nat 0) at 2 by lia.
  rewrite (play_from_run w start n Hs 0 fuel es);
    [| lia | lia | intros j Hj; apply Hno; lia].
  destruct (fuel - n)%nat as [|fuel'] eqn:Hf; [lia|].
  rewrite play_from_step by lia.
  cbn zeta. cbn [snd]. cbn [Nat.add].
  match goal with
  | |- context [emit ?l w] =>
      change (EEPROM_read (emit l w)) with (EEPROM_read w)
  end.
  change (EEPROM_read w (start + 2 * Z.of_nat n),
          EEPROM_read w (start + 2 * Z.of_nat n + 1))
    with (pair_at w start n).
  unfold pair_at in Hend. cbn [snd] in Hend.
  rewrite Hend, Z.eqb_refl, emit_emit, <- app_assoc.
  fold (pair_at w start n) in *.
  rewrite first_pairs_S, flat_map_app. cbn [flat_map].
  now rewrite app_nil_r.
Qed.

(** Playback of a region with no [END] in its 50 pairs. *)
Lemma play_from_no_END (w : world) (start : Z) (fuel : nat) :
  1 <= start <= 500 -> (50 <= fuel)%nat ->
  (forall i, (i < 50)%nat -> snd (pair_at w start i) <> END) ->
  forall es,
    play_from fuel start start (emit es w)
    = emit (es ++ flat_map pair_events (first_pairs w start 50)) w.
Proof.
  intros Hs Hfuel Hno es.
  replace start with (start + 2 * Z.of_nat 0) at 2 by lia.
  rewrite (play_from_run w start 50 Hs 0 fuel es);
    [| lia | lia | intros j Hj; apply Hno; lia].
  rewrite play_from_past_end by lia.
  reflexivity.
Qed.

Lemma play_track_unfold (w : world) (track start : Z) :
  EEPROM_read w 0 = track -> get_start_mem_location track = Some start ->
  play_track w
  = Returns (play_from 100 start start (emit (play_header track start) w)).
Proof.
  intros Ht Hs. unfold play_track. rewrite Ht, Hs.
  unfold Serial_print_num, Serial_print. now rewrite !emit_emit.
Qed.

(** [play_track] on a region whose first [END] is in pair [n]. *)
Lemma play_track_to_END (w : world) (track start : Z) (n : nat) :
  EEPROM_read w 0 = track ->
  get_start_mem_location track = Some start ->
  (n < 50)%nat ->
  snd (pair_at w start n) = END ->
  (forall i, (i < n)%nat -> snd (pair_at w start i) <> END) ->
  play_track w
  = Returns (emit (play_header track start
                   ++ flat_map pair_events (first_pairs w start (S n))) w).
Proof.
  intros Ht Hstart Hn Hend Hno.
  pose proof (get_start_mem_location_some _ _ Hstart) as (_ & Hs & _).
  rewrite (play_track_unfold w track start Ht Hstart).
  f_equal. apply play_from_to_END; try assumption; lia.
Qed.

(** [play_track] on a region with no [END] in its 50 pairs. *)
Lemma play_track_no_END (w : world) (track start : Z) :
  EEPROM_read w 0 = track ->
  get_start_mem_location track = Some start ->
  (forall i, (i < 50)%nat -> snd (pair_at w start i) <> END) ->
  play_track w
  = Returns (emit (play_header track start
                   ++ flat_map pair_events (first_pairs w start 50)) w).
Proof.
  intros Ht Hstart Hno.
  pose proof (get_start_mem_location_some _ _ Hstart) as (_ & Hs & _).
  rewrite (play_track_unfold w track start Ht Hstart).
  f_equal. apply play_from_no_END; try assumption; lia.
Qed.

(** C1: when the first [END] of the region of the selected track is in
    pair [n] with [n < 50], [play_track] sends out the header and then, pair
    after pair from pair 0 to pair [n], the wait and the action of the
    pair; the calls of actuator routines are those of the pairs before pair
    [n], and pair [n] itself only prints.  When none of the 50 pairs is an
    [END], it does so for the 50 pairs and returns. *)
Theorem play_track_scans_to_END (w : world) (track start : Z) :
  EEPROM_read w 0 = track ->
  get_start_mem_location track = Some start ->
  (forall n : nat,
      (n < 50)%nat ->
      snd (pair_at w start n) = END ->
      (forall i, (i < n)%nat -> snd (pair_at w start i) <> END) ->
      play_track w
      = Returns (emit (play_header track start
                       ++ flat_map pair_events (first_pairs w start (S n))) w)
      /\ actuations (flat_map pair_events (first_pairs w start (S n)))
         = flat_map (fun p => call_of_kind (snd p)) (first_pairs w start n)
      /\ pair_events (pair_at w start n)
         = [Serial_text "event_delay: "; Serial_num (fst (pair_at w start n));
            Delay (fst (pair_at w start n) * 100); Serial_text "END"]) /\
  ((forall i, (i < 50)%nat -> snd (pair_at w start i) <> END) ->
   play_track w
   = Returns (emit (play_header track start
                    ++ flat_map pair_events (first_pairs w start 50)) w)).
Proof.
  intros Ht Hstart. split.
  - intros n Hn Hend Hno. split; [|split].
    + now apply play_track_to_END.
    + rewrite actuations_pairs, first_pairs_S, flat_map_app.
      cbn [flat_map]. rewrite Hend. cbn. now rewrite app_nil_r.
    + unfold pair_events. rewrite Hend. reflexivity.
  - intros Hno. now apply play_track_no_END.
Qed.

Lemma play_track_scans_to_END_witness :
  play_track (mkWorld factory_eeprom 0 0 0 [] [] 0 [])
  = Returns
      (emit (play_header 1 1
             ++ flat_map pair_events
                  (first_pairs (mkWorld factory_eeprom 0 0 0 [] [] 0 []) 1 10))
            (mkWorld factory_eeprom 0 0 0 [] [] 0 [])).
Proof.
  refine (proj1 (proj1 (play_track_scans_to_END
                          (mkWorld factory_eeprom 0 0 0 [] [] 0 []) 1 1
                          eq_refl eq_refl) 9%nat _ eq_refl _)).
  - lia.
  - intros i Hi.
    assert (Hc : (i = 0 \/ i = 1 \/ i = 2 \/ i = 3 \/ i = 4 \/ i = 5 \/
                  i = 6 \/ i = 7 \/ i = 8)%nat) by lia.
    repeat (destruct Hc as [Hc|Hc]; [subst i; vm_compute; discriminate|]).
    subst i; vm_compute; discriminate.
Defined.

(** C9: a pair whose type byte is none of [YES], [NO], [SNAKE], [END] does
    not stop playback: the turn of the loop waits the pair's delay, prints
    "Invalid event type!", calls no actuator routine, changes nothing else,
    and the loop goes on with the pair two cells further. *)
Theorem invalid_event_type_is_skipped
    (w : world) (track start pos : Z) (fuel : nat) :
  get_start_mem_location track = Some start ->
  start <= pos <= start + 99 ->
  EEPROM_read w (pos + 1) <> YES ->
  EEPROM_read w (pos + 1) <> NO ->
  EEPROM_read w (pos + 1) <> SNAKE ->
  EEPROM_read w (pos + 1) <> END ->
  play_from (S fuel) start pos w
  = play_from fuel start (pos + 2)
      (emit [Serial_text "event_delay: "; Serial_num (EEPROM_read w pos);
             Delay (EEPROM_read w pos * 100);
             Serial_text "Invalid event type!"] w).
Proof.
  intros Hstart Hpos Hy Hn Hsn He.
  pose proof (get_start_mem_location_some _ _ Hstart) as (_ & Hs & _).
  rewrite play_from_step by assumption.
  cbn zeta. cbn [snd fst]. unfold pair_events, action_events. cbn [fst snd].
  destruct (Z.eqb_spec (EEPROM_read w (pos + 1)) END); [contradiction|].
  destruct (Z.eqb_spec (EEPROM_read w (pos + 1)) YES); [contradiction|].
  destruct (Z.eqb_spec (EEPROM_read w (pos + 1)) NO); [contradiction|].
  destruct (Z.eqb_spec (EEPROM_read w (pos + 1)) SNAKE); [contradiction|].
  reflexivity.
Qed.

Lemma invalid_event_type_is_skipped_witness :
  play_from 2 500 500 (mkWorld fresh_eeprom 0 0 0 [] [] 0 [])
  = play_from 1 500 502
      (emit [Serial_text "event_delay: "; Serial_num 255; Delay 25500;
             Serial_text "Invalid event type!"]
            (mkWorld fresh_eeprom 0 0 0 [] [] 0 [])).
Proof.
  apply (invalid_event_type_is_skipped
           (mkWorld fresh_eeprom 0 0 0 [] [] 0 []) 6 500 500 1 eq_refl);
    solve [lia | vm_compute; discriminate].
Defined.

(* ------------------------------------------------------------------ *)
(** ** Waiting for release *)

Lemma wait_release_fuel_keeps (fuel : nat) (w : world) :
  eeprom (wait_release_fuel fuel w) = eeprom w /\
  trace (wait_release_fuel fuel w) = trace w /\
  clock (wait_release_fuel fuel w) = clock w /\
  now (wait_release_fuel fuel w) = now w.
Proof.
  revert w. induction fuel as [|fuel IH]; intros w; cbn [wait_release_fuel];
    pose proof (check_buttons_keeps w) as (He & Ht & Hc & Hn & _);
    destruct (check_buttons w) as [pressed w']; cbn [snd] in *;
    destruct pressed; auto.
  destruct (IH w') as (He' & Ht' & Hc' & Hn').
  repeat split; congruence.
Qed.

Lemma wait_release_fuel_pins (P : lines -> Prop) (fuel : nat) (w : world) :
  Forall P (pins w) -> Forall P (pins (wait_release_fuel fuel w)).
Proof.
  revert w. induction fuel as [|fuel IH]; intros w HP;
    cbn [wait_release_fuel];
    pose proof (check_buttons_keeps w) as (_ & _ & _ & _ & Hp);
    destruct (check_buttons w) as [pressed w']; cbn [snd] in *;
    assert (HP' : Forall P (pins w'))
      by (rewrite Hp; destruct (pins w); [constructor | now inversion HP]);
    destruct pressed; auto.
Qed.

Lemma wait_release_eeprom (w : world) : eeprom (wait_release w) = eeprom w.
Proof. apply wait_release_fuel_keeps. Qed.

Lemma wait_release_trace (w : world) : trace (wait_release w) = trace w.
Proof. apply wait_release_fuel_keeps. Qed.

(** While buttons stay pressed the wait goes on; it ends with the first
    poll that finds them released. *)
Lemma wait_release_fuel_held (hs rest : list lines) (w : world) (fuel : nat) :
  Forall is_pressed hs ->
  pins w = hs ++ all_released :: rest ->
  (List.length hs <= fuel)%nat ->
  let w' := wait_release_fuel fuel w in
  pins w' = rest /\ eeprom w' = eeprom w /\ trace w' = trace w /\
  clock w' = clock w /\ now w' = now w.
Proof.
  intros Hh Hp Hf w'.
  pose proof (wait_release_fuel_keeps fuel w) as (He & Ht & Hc & Hn).
  split; [|now repeat split].
  subst w'. clear He Ht Hc Hn.
  revert w fuel Hp Hf. induction Hh as [|h hs Hh1 Hh IH]; intros w fuel Hp Hf.
  - assert (Hl : current_lines w = all_released)
      by (unfold current_lines; now rewrite Hp).
    pose proof (check_buttons_pressed w) as Hpr.
    pose proof (check_buttons_keeps w) as (_ & _ & _ & _ & Hpins).
    rewrite Hl in Hpr. rewrite Hp in Hpins. cbn in Hpr, Hpins.
    destruct fuel; cbn [wait_release_fuel];
      destruct (check_buttons w) as [pressed w1]; cbn [fst snd] in *;
      subst pressed; exact Hpins.
  - assert (Hl : current_lines w = h)
      by (unfold current_lines; now rewrite Hp).
    pose proof (check_buttons_pressed w) as Hpr.
    pose proof (check_buttons_keeps w) as (_ & _ & _ & _ & Hpins).
    rewrite Hl in Hpr. rewrite Hp in Hpins. cbn [tl app] in Hpins.
    destruct (Z.eqb_spec (priority_command h) 0) as [E|_];
      [now apply Hh1 in E|].
    cbn [negb] in Hpr.
    destruct fuel as [|fuel]; [cbn in Hf; lia|].
    cbn [wait_release_fuel].
    destruct (check_buttons w) as [pressed w1]; cbn [fst snd] in *.
    subst pressed. apply IH; [exact Hpins | cbn in Hf; lia].
Qed.

Lemma wait_release_held (hs rest : list lines) (w : world) :
  Forall is_pressed hs ->
  pins w = hs ++ all_released :: rest ->
  pins (wait_release w) = rest /\
  eeprom (wait_release w) = eeprom w /\
  trace (wait_release w) = trace w /\
  clock (wait_release w) = clock w /\
  now (wait_release w) = now w.
Proof.
  intros Hh Hp. unfold wait_release.
  apply (wait_release_fuel_held hs rest w _ Hh Hp).
  rewrite Hp, length_app. lia.
Qed.

(* ------------------------------------------------------------------ *)
(** ** Factory reset and start-up *)

Lemma resets_app (a b : list event) : resets (a ++ b) = (resets a + resets b)%nat.
Proof. unfold resets. now rewrite filter_app, length_app. Qed.

Lemma store_example_trace (bytes : list Z) (i : Z) (w : world) :
  trace (store_example i bytes w) = trace w /\
  pins (store_example i bytes w) = pins w.
Proof.
  revert i w. induction bytes as [|b bytes IH]; intros i w;
    cbn [store_example]; [now split|].
  destruct (b =? END); [now split|].
  destruct (IH (i + 1) (EEPROM_write (1 + i) b w)) as [-> ->]. now split.
Qed.

(** The loop over the bytes of a track writes no cell outside of
    [1 + i .. i + length bytes]. *)
Lemma store_example_other_cells (bytes : list Z) (i : Z) (w : world) (a : Z) :
  a < 1 + i \/ 1 + i + Z.of_nat (List.length bytes) <= a ->
  EEPROM_read (store_example i bytes w) a = EEPROM_read w a.
Proof.
  revert i w. induction bytes as [|b bytes IH]; intros i w Ha;
    cbn [store_example]; [reflexivity|].
  cbn [List.length] in Ha.
  destruct (b =? END).
  - apply EEPROM_read_write_other. lia.
  - rewrite IH by lia. apply EEPROM_read_write_other. lia.
Qed.

Lemma factory_reset_trace (w : world) :
  trace (factory_reset w)
  = trace w
    ++ [Serial_text "Factory Reset!!";
        DigitalWrite 13 true; Delay 100; DigitalWrite 13 false;
        DigitalWrite 10 true; Delay 100; DigitalWrite 10 false;
        DigitalWrite 13 true; Delay 100; DigitalWrite 13 false;
        DigitalWrite 10 true; Delay 100; DigitalWrite 10 false;
        DigitalWrite 13 true; Delay 100; DigitalWrite 13 false;
        DigitalWrite 10 true; Delay 100; DigitalWrite 10 false].
Proof.
  unfold factory_reset. rewrite wait_release_trace.
  rewrite (proj1 (store_example_trace _ _ _)).
  cbn. now rewrite <- !app_assoc.
Qed.

Lemma factory_reset_resets (w : world) :
  resets (trace (factory_reset w)) = S (resets (trace w)).
Proof. rewrite factory_reset_trace, resets_app. cbn. lia. Qed.

Lemma factory_reset_other_cells (w : world) (a : Z) :
  a < 0 \/ 20 < a -> EEPROM_read (factory_reset w) a = EEPROM_read w a.
Proof.
  intros Ha. unfold factory_reset, EEPROM_read.
  rewrite wait_release_eeprom. fold (EEPROM_read
    (store_example 0 example_track_1
       (EEPROM_write 0 1
          (blink_led GREEN_LED_pin (blink_led RED_LED_pin
             (blink_led GREEN_LED_pin (blink_led RED_LED_pin
                (blink_led GREEN_LED_pin (blink_led RED_LED_pin
                   (Serial_print "Factory Reset!!" w))))))))) a).
  rewrite store_example_other_cells by (cbn; lia).
  rewrite EEPROM_read_write_other by lia.
  reflexivity.
Qed.

Lemma factory_reset_pins (P : lines -> Prop) (w : world) :
  Forall P (pins w) -> Forall P (pins (factory_reset w)).
Proof.
  intros HP. unfold factory_reset, wait_release.
  apply wait_release_fuel_pins.
  now rewrite (proj2 (store_example_trace _ _ _)).
Qed.

Lemma manual_reset_cell_1023 (fuel : nat) (time_pressed : Z) (w : world) :
  EEPROM_read (manual_reset fuel time_pressed w) 1023 = EEPROM_read w 1023.
Proof.
  revert time_pressed w.
  induction fuel as [|fuel IH]; intros tp w; cbn [manual_reset];
    [reflexivity|].
  pose proof (check_buttons_keeps w) as (He & _).
  destruct (check_buttons w) as [pressed w']; cbn [snd] in He.
  assert (Hw' : EEPROM_read w' 1023 = EEPROM_read w 1023)
    by (unfold EEPROM_read; now rewrite He).
  destruct (pressed && (userInput w' =? RECORD_CMD)); [|exact Hw'].
  destruct (to_int (tp + 1) =? 3).
  - rewrite factory_reset_other_cells by lia. exact Hw'.
  - rewrite IH. exact Hw'.
Qed.

(** When the first poll of the check for a manual reset does not report
    Record, the check does nothing but that poll. *)
Lemma manual_reset_not_record (fuel : nat) (time_pressed : Z) (w : world) :
  priority_command (current_lines w) <> RECORD_CMD ->
  trace (manual_reset fuel time_pressed w) = trace w /\
  eeprom (manual_reset fuel time_pressed w) = eeprom w.
Proof.
  intros Hc. destruct fuel as [|fuel]; cbn [manual_reset]; [now split|].
  pose proof (check_buttons_keeps w) as (He & Ht & _).
  pose proof (check_buttons_userInput w) as Hu.
  destruct (check_buttons w) as [pressed w']; cbn [snd] in *.
  destruct (Z.eqb_spec (userInput w') RECORD_CMD) as [E|_]; [congruence|].
  rewrite andb_false_r. now split.
Qed.

Lemma current_lines_Forall (P : lines -> Prop) (w : world) :
  P all_released -> Forall P (pins w) -> P (current_lines w).
Proof.
  intros H0 HP. unfold current_lines.
  destruct (pins w); [exact H0 | now inversion HP].
Qed.

Lemma first_boot_fresh (w : world) :
  EEPROM_read w 1023 = 255 ->
  first_boot w = EEPROM_write 1023 0 (factory_reset w).
Proof. intros H. unfold first_boot. now rewrite H. Qed.

Lemma first_boot_used (w : world) :
  EEPROM_read w 1023 <> 255 -> first_boot w = w.
Proof.
  intros H. unfold first_boot.
  destruct (Z.eqb_spec (EEPROM_read w 1023) 255); [contradiction|reflexivity].
Qed.

(** Resets and mark of [setup], from those of its first-boot check. *)
Lemma setup_after_first_boot (w : world) :
  let w0 := digitalWrite 7 LOW (digitalWrite GREEN_LED_pin LOW
              (digitalWrite RED_LED_pin LOW (digitalWrite 4 LOW
                 (Serial_print "OpenSnake Firmware Version 1.0" w)))) in
  EEPROM_read (setup w) 1023 = EEPROM_read (first_boot w0) 1023 /\
  (priority_command (current_lines (first_boot w0)) <> RECORD_CMD ->
   resets (trace (setup w)) = resets (trace (first_boot w0))).
Proof.
  intros w0. unfold setup. fold w0. split.
  - rewrite EEPROM_read_blink_track.
    change (EEPROM_read (Serial_print_num ?a (Serial_print ?s ?x)) 1023)
      with (EEPROM_read x 1023).
    apply manual_reset_cell_1023.
  - intros Hc.
    destruct (manual_reset_not_record 3 0 (first_boot w0) Hc) as [Ht He].
    unfold blink_track.
    set (n := Z.to_nat _). clearbody n.
    set (x := delay 1000 _).
    assert (Hx : resets (trace x) = resets (trace (first_boot w0))).
    { subst x. unfold delay, Serial_print_num, Serial_print, emit.
      cbn [trace]. rewrite Ht, !resets_app. cbn. lia. }
    clearbody x. rewrite <- Hx. clear.
    revert x. induction n as [|n IH]; intros x; cbn [blink_times];
      [reflexivity|].
    rewrite IH. unfold delay, digitalWrite, emit. cbn [trace].
    rewrite !resets_app. cbn. lia.
Qed.

Lemma setup_prologue (w : world) :
  let w0 := digitalWrite 7 LOW (digitalWrite GREEN_LED_pin LOW
              (digitalWrite RED_LED_pin LOW (digitalWrite 4 LOW
                 (Serial_print "OpenSnake Firmware Version 1.0" w)))) in
  eeprom w0 = eeprom w /\ pins w0 = pins w /\
  resets (trace w0) = resets (trace w).
Proof.
  unfold digitalWrite, Serial_print, emit. cbn [eeprom pins trace].
  repeat split. rewrite !resets_app. cbn. lia.
Qed.

(** C7: on a boot that finds 255 in cell 1023 the first-boot check runs the
    factory reset once and then writes 0 to the cell; the cell still holds
    0 when [setup] returns, and when no poll of the boot reports Record the
    whole of [setup] has run one reset.  On any later boot with that value
    in the cell the first-boot check does nothing, and [setup] runs no
    reset when no poll reports Record. *)
Theorem first_boot_resets_once (w : world) :
  EEPROM_read w 1023 = 255 ->
  resets (trace (first_boot w)) = S (resets (trace w)) /\
  EEPROM_read (first_boot w) 1023 = 0 /\
  EEPROM_read (setup w) 1023 = 0 /\
  (Forall (fun l => priority_command l <> RECORD_CMD) (pins w) ->
   resets (trace (setup w)) = S (resets (trace w))) /\
  forall w2 : world,
    EEPROM_read w2 1023 = EEPROM_read (setup w) 1023 ->
    first_boot w2 = w2 /\
    (Forall (fun l => priority_command l <> RECORD_CMD) (pins w2) ->
     resets (trace (setup w2)) = resets (trace w2)).
Proof.
  intros Hfresh.
  assert (Hfb : forall x, EEPROM_read x 1023 = 255 ->
            resets (trace (first_boot x)) = S (resets (trace x)) /\
            EEPROM_read (first_boot x) 1023 = 0 /\
            forall P, Forall P (pins x) -> Forall P (pins (first_boot x))).
  { intros x Hx. rewrite (first_boot_fresh x Hx). split; [|split].
    - rewrite EEPROM_write_trace. apply factory_reset_resets.
    - rewrite EEPROM_read_write_same. reflexivity.
    - intros P HP. rewrite EEPROM_write_pins.
      apply (factory_reset_pins P x HP). }
  pose proof (setup_after_first_boot w) as [Hmark Hres].
  pose proof (setup_prologue w) as (He0 & Hp0 & Hr0).
  cbn zeta in Hmark, Hres, He0, Hp0, Hr0.
  set (w0 := digitalWrite 7 LOW _) in *.
  assert (Hw0 : EEPROM_read w0 1023 = 255)
    by (unfold EEPROM_read in *; now rewrite He0).
  destruct (Hfb w0 Hw0) as (R0 & M0 & P0).
  assert (Hsetup : EEPROM_read (setup w) 1023 = 0) by congruence.
  destruct (Hfb w Hfresh) as (R & M & _).
  split; [exact R|]. split; [exact M|]. split; [exact Hsetup|]. split.
  { intros HP. rewrite Hres; [lia|].
    apply (current_lines_Forall (fun l => priority_command l <> RECORD_CMD));
      [discriminate|].
    apply P0. now rewrite Hp0. }
  intros w2 Hw2. rewrite Hsetup in Hw2.
  split; [apply first_boot_used; lia|].
  intros HP.
  pose proof (setup_after_first_boot w2) as [_ Hres2].
  pose proof (setup_prologue w2) as (He2 & Hp2 & Hr2).
  cbn zeta in Hres2, He2, Hp2, Hr2.
  set (w3 := digitalWrite 7 LOW (digitalWrite GREEN_LED_pin LOW
                (digitalWrite RED_LED_pin LOW (digitalWrite 4 LOW
                   (Serial_print "OpenSnake Firmware Version 1.0" w2)))))
    in *.
  assert (Hw3 : first_boot w3 = w3).
  { apply first_boot_used. unfold EEPROM_read in *. rewrite He2. lia. }
  rewrite Hw3 in Hres2. rewrite Hres2; [exact Hr2|].
  apply (current_lines_Forall (fun l => priority_command l <> RECORD_CMD));
    [discriminate|].
  now rewrite Hp2.
Qed.

Lemma first_boot_resets_once_witness :
  resets (trace (first_boot (mkWorld fresh_eeprom 0 0 0 [] [] 0 []))) = 1%nat
  /\ EEPROM_read (first_boot (mkWorld fresh_eeprom 0 0 0 [] [] 0 [])) 1023
     = 0.
Proof.
  destruct (first_boot_resets_once (mkWorld fresh_eeprom 0 0 0 [] [] 0 [])
              eq_refl) as (H1 & H2 & _).
  split; [exact H1 | exact H2].
Defined.

(* ------------------------------------------------------------------ *)
(** ** The main loop and the long press *)

Lemma entered_record_app (a b : list event) :
  entered_record (a ++ b) = entered_record a || entered_record b.
Proof. unfold entered_record. apply existsb_app. Qed.

Lemma check_buttons_record_only (w : world) :
  current_lines w = only RECORD_BUTTON ->
  check_buttons w
  = (true,
     mkWorld (eeprom w) RECORD_CMD (to_int (recordButtonCounter w + 1)) 0
             (tl (pins w)) (clock w) (now w) (trace w)).
Proof. intros Hl. unfold check_buttons. rewrite Hl. reflexivity. Qed.

Lemma check_buttons_released (w : world) :
  current_lines w = all_released ->
  check_buttons w
  = (false,
     mkWorld (eeprom w) 0 0 0 (tl (pins w)) (clock w) (now w) (trace w)).
Proof. intros Hl. unfold check_buttons. rewrite Hl. reflexivity. Qed.

(** A turn of [loop()] that finds REC alone pressed and the counter below
    200 only counts. *)
Lemma loop_record_held (w : world) :
  current_lines w = only RECORD_BUTTON ->
  0 <= recordButtonCounter w < 200 ->
  loop w
  = Returns
      (mkWorld (eeprom w) RECORD_CMD (recordButtonCounter w + 1) 0
               (tl (pins w)) (clock w) (now w) (trace w ++ [Delay 10])).
Proof.
  intros Hl Hc. unfold loop. rewrite (check_buttons_record_only w Hl).
  cbn [userInput recordButtonCounter].
  rewrite to_int_small by (unfold INT_MIN, INT_MAX; lia).
  change (RECORD_CMD =? RECORD_CMD) with true. cbn match.
  destruct (Z.gtb_spec (recordButtonCounter w + 1) 200); [lia|].
  reflexivity.
Qed.

Lemma loop_idle (w : world) :
  current_lines w = all_released ->
  loop w
  = Returns
      (mkWorld (eeprom w) 0 0 0 (tl (pins w)) (clock w) (now w)
               (trace w ++ [Delay 10])).
Proof.
  intros Hl. unfold loop. rewrite (check_buttons_released w Hl). reflexivity.
Qed.

Lemma run_loop_add (n m : nat) (w : world) :
  run_loop (n + m) w = run_loop n w >>= run_loop m.
Proof.
  revert w. induction n as [|n IH]; intros w; cbn [run_loop Nat.add];
    [reflexivity|].
  destruct (loop w) as [w'| w' |]; cbn [bind]; [apply IH | | ]; reflexivity.
Qed.

(** [j] turns with REC held from a counter at [c], while [c + j <= 200]. *)
Lemma run_loop_record_held (j : nat) :
  forall (w : world) (k : nat) (rest : list lines),
    pins w = repeat (only RECORD_BUTTON) k ++ rest ->
    (j <= k)%nat ->
    0 <= recordButtonCounter w ->
    recordButtonCounter w + Z.of_nat j <= 200 ->
    exists w',
      run_loop j w = Returns w' /\
      pins w' = repeat (only RECORD_BUTTON) (k - j) ++ rest /\
      recordButtonCounter w' = recordButtonCounter w + Z.of_nat j /\
      entered_record (trace w') = entered_record (trace w).
Proof.
  induction j as [|j IH]; intros w k rest Hp Hj Hc0 Hc.
  - exists w. cbn [run_loop]. rewrite Nat.sub_0_r.
    repeat split; [exact Hp | lia].
  - destruct k as [|k]; [lia|].
    assert (Hl : current_lines w = only RECORD_BUTTON)
      by (unfold current_lines; now rewrite Hp).
    cbn [run_loop]. rewrite loop_record_held by (assumption || lia).
    cbn [bind].
    match goal with |- context [run_loop j ?x] => set (w1 := x) end.
    destruct (IH w1 k rest) as (w' & Hrun & Hp' & Hc' & Ht').
    + subst w1. cbn [pins]. now rewrite Hp.
    + lia.
    + subst w1. cbn [recordButtonCounter]. lia.
    + subst w1. cbn [recordButtonCounter]. lia.
    + exists w'. split; [exact Hrun|]. split; [exact Hp'|]. split.
      * rewrite Hc'. subst w1. cbn [recordButtonCounter]. lia.
      * rewrite Ht'. subst w1. cbn [trace].
        rewrite entered_record_app. cbn. apply orb_false_r.
Qed.

(** Turns of [loop()] with no button touched. *)
Lemma run_loop_idle (n : nat) :
  forall w : world,
    pins w = [] ->
    exists w',
      run_loop n w = Returns w' /\ pins w' = [] /\
      entered_record (trace w') = entered_record (trace w).
Proof.
  induction n as [|n IH]; intros w Hp.
  - exists w. now repeat split.
  - assert (Hl : current_lines w = all_released)
      by (unfold current_lines; now rewrite Hp).
    cbn [run_loop]. rewrite (loop_idle w Hl). cbn [bind].
    match goal with |- context [run_loop n ?x] => set (w1 := x) end.
    destruct (IH w1) as (w' & Hrun & Hp' & Ht').
    + subst w1. cbn [pins]. now rewrite Hp.
    + exists w'. split; [exact Hrun|]. split; [exact Hp'|].
      rewrite Ht'. subst w1. cbn [trace].
      rewrite entered_record_app. cbn. apply orb_false_r.
Qed.

Lemma wait_release_fuel_used_up (hs : list lines) :
  forall (w : world) (fuel : nat),
    Forall is_pressed hs -> pins w = hs -> (List.length hs <= fuel)%nat ->
    pins (wait_release_fuel fuel w) = [].
Proof.
  induction hs as [|h hs IH]; intros w fuel Hh Hp Hf.
  - assert (Hpins : pins (snd (check_buttons w)) = [])
      by (rewrite (proj2 (proj2 (proj2 (proj2 (check_buttons_keeps w)))));
          now rewrite Hp).
    pose proof (check_buttons_pressed w) as Hpr.
    unfold current_lines in Hpr. rewrite Hp in Hpr. cbn in Hpr.
    destruct fuel; cbn [wait_release_fuel];
      destruct (check_buttons w) as [pressed w1]; cbn [fst snd] in *;
      subst pressed; exact Hpins.
  - inversion Hh as [|? ? Hh1 Hh2]; subst.
    pose proof (check_buttons_pressed w) as Hpr.
    pose proof (check_buttons_keeps w) as (_ & _ & _ & _ & Hpins).
    unfold current_lines in Hpr. rewrite Hp in Hpr, Hpins.
    cbn [tl] in Hpins.
    destruct (Z.eqb_spec (priority_command h) 0) as [E|_];
      [now apply Hh1 in E|].
    cbn [negb] in Hpr.
    destruct fuel as [|fuel]; [cbn in Hf; lia|].
    cbn [wait_release_fuel].
    destruct (check_buttons w) as [pressed w1]; cbn [fst snd] in *.
    subst pressed. apply IH; [exact Hh2 | exact Hpins | cbn in Hf; lia].
Qed.

Lemma millis_keeps (w : world) :
  eeprom (snd (millis w)) = eeprom w /\
  pins (snd (millis w)) = pins w /\
  trace (snd (millis w)) = trace w.
Proof. unfold millis. destruct (clock w); cbn; repeat split. Qed.

(** [record_track] entered while buttons are held and never touched again
    after their release: it prints its banner and polls for ever. *)
Lemma record_track_unattended (w : world) :
  Forall is_pressed (pins w) ->
  exists w', record_track w = Spins w' /\ entered_record (trace w') = true.
Proof.
  intros Hh. unfold record_track.
  set (w1 := wait_release (blink_led RED_LED_pin w)).
  assert (Hp1 : pins w1 = []).
  { subst w1. unfold wait_release.
    apply (wait_release_fuel_used_up (pins w)); [exact Hh | reflexivity |].
    cbn [blink_led]. reflexivity. }
  set (w2 := Serial_print_num _ _).
  assert (Hp2 : pins w2 = []) by exact Hp1.
  assert (Ht2 : entered_record (trace w2) = true).
  { subst w2. unfold Serial_print_num, Serial_print, emit. cbn [trace].
    rewrite <- app_assoc, entered_record_app. cbn. apply orb_true_r. }
  clearbody w2. clearbody w1. clear Hp1 Hh.
  pose proof (millis_keeps w2) as (_ & Hp3 & Ht3).
  destruct (millis w2) as [t w3]. cbn [snd] in Hp3, Ht3.
  rewrite Hp3, Hp2. cbn [List.length record_loop].
  set (w4 := delay 100 _).
  pose proof (millis_keeps w4) as (_ & Hp5 & Ht5).
  destruct (millis w4) as [t' w5]. cbn [snd] in Hp5, Ht5.
  set (w6 := Serial_print_num _ _).
  assert (Hl6 : current_lines w6 = all_released).
  { unfold current_lines. subst w6.
    change (pins (Serial_print_num ?a (Serial_print ?s w5))) with (pins w5).
    rewrite Hp5. subst w4. cbn. now rewrite Hp3, Hp2. }
  rewrite (check_buttons_released w6 Hl6).
  eexists. split; [reflexivity|].
  cbn [trace]. subst w6. unfold Serial_print_num, Serial_print, emit.
  cbn [trace]. rewrite Ht5. subst w4.
  unfold delay, digitalWrite, emit. cbn [trace].
  rewrite !entered_record_app, Ht3, Ht2. reflexivity.
Qed.

Lemma is_pressed_record_only : is_pressed (only RECORD_BUTTON).
Proof. unfold is_pressed. vm_compute. discriminate. Qed.

(** The turn of [loop()] that finds REC held with the counter at 200
    enters [record_track]. *)
Lemma loop_record_threshold (w : world) (m : nat) :
  pins w = repeat (only RECORD_BUTTON) (S m) ->
  recordButtonCounter w = 200 ->
  exists w', loop w = Spins w' /\ entered_record (trace w') = true.
Proof.
  intros Hp Hc.
  assert (Hl : current_lines w = only RECORD_BUTTON)
    by (unfold current_lines; now rewrite Hp).
  unfold loop. rewrite (check_buttons_record_only w Hl).
  cbn [userInput recordButtonCounter]. rewrite Hc.
  change (to_int (200 + 1)) with 201.
  change (RECORD_CMD =? RECORD_CMD) with true.
  change (201 >? 200) with true. cbn match.
  match goal with |- context [record_track ?x] => set (w1 := x) end.
  destruct (record_track_unattended w1) as (w' & Hrec & Ht).
  { subst w1. cbn [pins]. rewrite Hp. cbn [tl repeat].
    apply Forall_forall. intros l Hin. apply repeat_spec in Hin. subst l.
    exact is_pressed_record_only. }
  exists w'. rewrite Hrec. now split.
Qed.

(** C8 (amended): the long press of REC takes more than 200 polls of
    [loop()], that is 2 seconds at 10 ms a poll, not 3 seconds.  From a
    counter at zero, holding REC alone for [k] polls and letting go never
    enters [record_track] when [k <= 200]; when [k > 200] the first 200
    polls do not enter it and poll 201 does. *)
Theorem record_long_press_is_201_polls (w : world) (k : nat) :
  pins w = repeat (only RECORD_BUTTON) k ->
  recordButtonCounter w = 0 ->
  entered_record (trace w) = false ->
  ((k <= 200)%nat ->
   forall n, exists w',
     run_loop n w = Returns w' /\ entered_record (trace w') = false) /\
  ((200 < k)%nat ->
   (forall n, (n <= 200)%nat -> exists w',
      run_loop n w = Returns w' /\ entered_record (trace w') = false) /\
   exists w',
     run_loop 201 w = Spins w' /\ entered_record (trace w') = true).
Proof.
  intros Hp Hc Ht.
  assert (Hheld : forall n, (n <= k)%nat -> (n <= 200)%nat ->
            exists w', run_loop n w = Returns w' /\
                       pins w' = repeat (only RECORD_BUTTON) (k - n) /\
                       recordButtonCounter w' = Z.of_nat n /\
                       entered_record (trace w') = false).
  { intros n Hnk Hn.
    destruct (run_loop_record_held n w k []) as (w' & Hr & Hp' & Hc' & Ht');
      [now rewrite app_nil_r | lia | lia | lia |].
    exists w'. rewrite app_nil_r in Hp'. repeat split; try assumption.
    - lia.
    - congruence. }
  split.
  - intros Hk n. destruct (Nat.le_gt_cases n k) as [Hn|Hn].
    + destruct (Hheld n Hn ltac:(lia)) as (w' & Hr & _ & _ & Ht').
      now exists w'.
    + destruct (Hheld k (Nat.le_refl k) Hk) as (w1 & Hr & Hp1 & _ & Ht1).
      rewrite Nat.sub_diag in Hp1. cbn [repeat] in Hp1.
      destruct (run_loop_idle (n - k) w1 Hp1) as (w' & Hr' & _ & Ht').
      exists w'. replace n with (k + (n - k))%nat by lia.
      rewrite run_loop_add, Hr. cbn [bind]. split; [exact Hr'|congruence].
  - intros Hk. split.
    + intros n Hn.
      destruct (Hheld n ltac:(lia) Hn) as (w' & Hr & _ & _ & Ht').
      now exists w'.
    + destruct (Hheld 200%nat ltac:(lia) (Nat.le_refl _))
        as (w1 & Hr & Hp1 & Hc1 & _).
      replace (k - 200)%nat with (S (k - 201)) in Hp1 by lia.
      destruct (loop_record_threshold w1 (k - 201) Hp1 Hc1)
        as (w' & Hl & Ht').
      exists w'. change 201%nat with (200 + 1)%nat.
      rewrite run_loop_add, Hr. cbn [bind run_loop]. rewrite Hl.
      now split.
Qed.

Lemma record_long_press_is_201_polls_witness :
  exists w',
    run_loop 201 (hold_record factory_eeprom 310) = Spins w' /\
    entered_record (trace w') = true.
Proof.
  apply (proj2 (record_long_press_is_201_polls
                  (hold_record factory_eeprom 310) 310
                  eq_refl eq_refl eq_refl)).
  apply Nat.leb_le. reflexivity.
Defined.

(** C8 as stated fails: REC held for 2.9 seconds, 290 polls of [loop()] at
    10 ms a poll, does enter [record_track] (at poll 201). *)
Lemma record_entered_by_290_polls :
  entered_record
    (outcome_trace (run_loop 290 (hold_record factory_eeprom 290))) = true.
Proof. vm_compute. reflexivity. Qed.

(* ------------------------------------------------------------------ *)
(** ** Recording *)

(** The difference of two timer values survives the conversions between
    [unsigned long] and [long] when it is below [2 ^ 31]. *)
Lemma timer_difference (t since : Z) :
  0 <= t - since < 2 ^ 31 ->
  to_long (to_ulong (to_ulong t - to_long (to_ulong since))) = t - since.
Proof.
  unfold to_long, to_ulong, signed, unsigned.
  change (2 ^ (32 - 1)) with 2147483648. change (2 ^ 32) with 4294967296.
  change (2 ^ 31) with 2147483648.
  intros H. Z.div_mod_to_equations. lia.
Qed.

Lemma clamped_tenths_range (ms : Z) : 0 <= ms -> 0 <= clamped_tenths ms <= 255.
Proof.
  intros H. unfold clamped_tenths.
  pose proof (Z.div_pos ms 100 H ltac:(lia)). lia.
Qed.

Lemma measured_delay_clamped (t since : Z) :
  0 <= t - since < 2 ^ 31 ->
  measured_delay (to_ulong t) (to_long (to_ulong since))
  = clamped_tenths (t - since).
Proof.
  intros H. unfold measured_delay. rewrite (timer_difference t since H).
  rewrite Z.quot_div_nonneg by lia.
  assert (Hq : 0 <= (t - since) / 100 < 2 ^ 31).
  { change (2 ^ 31) with 2147483648 in *.
    split; [apply Z.div_pos; lia|].
    apply Z.div_lt_upper_bound; lia. }
  rewrite to_long_small by (change (2 ^ 31) with 2147483648 in *; lia).
  unfold clamped_tenths.
  destruct (Z.gtb_spec ((t - since) / 100) 255).
  - rewrite to_byte_small by lia. lia.
  - rewrite to_byte_small by lia. lia.
Qed.

Lemma measured_delay_range (t last : Z) : 0 <= measured_delay t last <= 255.
Proof. unfold measured_delay. apply to_byte_range. Qed.

Lemma record_event_writes
    (track start event_delay event_type recording_length : Z) (w : world) :
  get_start_mem_location track = Some start ->
  0 <= recording_length <= 255 ->
  record_event track event_delay event_type recording_length w
  = Returns
      (EEPROM_write (start + 2 * recording_length + 1) event_type
         (EEPROM_write (start + 2 * recording_length) event_delay w)).
Proof.
  intros Hstart Hlen. unfold record_event. rewrite Hstart.
  pose proof (get_start_mem_location_some _ _ Hstart) as (_ & Hs & _).
  rewrite (to_int_small (recording_length * 2))
    by (unfold INT_MIN, INT_MAX; lia).
  rewrite to_int_small by (unfold INT_MIN, INT_MAX; lia).
  replace (start + recording_length * 2)
    with (start + 2 * recording_length) by lia.
  reflexivity.
Qed.

Lemma kind_of_command_key (c : Z) :
  c = YES_CMD \/ c = NO_CMD \/ c = SNAKE_CMD ->
  kind_of_command c <> END /\ 0 <= kind_of_command c <= 255.
Proof.
  intros [ -> | [ -> | -> ] ]; vm_compute; split;
    solve [discriminate | split; discriminate].
Qed.

(** A press of YES, NO or SNAKE in [record_track]: the pair is written
    and recording goes on. *)
Lemma record_press_key (track start d len : Z) (w : world) :
  get_start_mem_location track = Some start ->
  0 <= len <= 255 ->
  userInput w = YES_CMD \/ userInput w = NO_CMD \/ userInput w = SNAKE_CMD ->
  exists w',
    record_press track d len w = ((to_byte (len + 1), true), Returns w') /\
    pins w' = pins w /\ clock w' = clock w /\
    forall a, EEPROM_read w' a
              = EEPROM_read
                  (with_pair (start + 2 * len) d
                     (kind_of_command (userInput w)) w) a.
Proof.
  intros Hstart Hlen Hc. unfold record_press.
  destruct Hc as [Hc|[Hc|Hc]]; rewrite Hc;
    cbn [Z.eqb YES_CMD NO_CMD SNAKE_CMD Pos.eqb];
    rewrite (record_event_writes _ start) by assumption;
    cbn [bind]; eexists; (split; [reflexivity|]);
    repeat split.
Qed.

(** The press of REC in [record_track]: the measured delay and [END] are
    written and recording stops. *)
Lemma record_press_stop (track start d len : Z) (w : world) :
  get_start_mem_location track = Some start ->
  0 <= len <= 255 ->
  userInput w = RECORD_CMD ->
  exists w',
    record_press track d len w = ((len, false), Returns w') /\
    pins w' = pins w /\ clock w' = clock w /\
    forall a, EEPROM_read w' a
              = EEPROM_read (with_pair (start + 2 * len) d END w) a.
Proof.
  intros Hstart Hlen Hc. unfold record_press. rewrite Hc.
  cbn [Z.eqb RECORD_CMD YES_CMD NO_CMD SNAKE_CMD Pos.eqb].
  rewrite (record_event_writes _ start) by assumption.
  eexists. split; [reflexivity|]. repeat split.
Qed.

(** Recording stops with the press of REC and with no other command. *)
Lemma record_press_goes_on (track d len : Z) (w : world) :
  snd (fst (record_press track d len w))
  = negb (userInput w =? RECORD_CMD).
Proof.
  unfold record_press.
  destruct (Z.eqb_spec (userInput w) YES_CMD) as [->|_]; [reflexivity|].
  destruct (Z.eqb_spec (userInput w) NO_CMD) as [->|_]; [reflexivity|].
  destruct (Z.eqb_spec (userInput w) SNAKE_CMD) as [->|_]; [reflexivity|].
  destruct (Z.eqb_spec (userInput w) RECORD_CMD); reflexivity.
Qed.

Lemma millis_cons (w : world) (t : Z) (cs : list Z) :
  clock w = t :: cs ->
  millis w
  = (to_ulong t,
     mkWorld (eeprom w) (userInput w) (recordButtonCounter w)
             (incrementTrackButtonCounter w) (pins w) cs (to_ulong t)
             (trace w)).
Proof. intros H. unfold millis. now rewrite H. Qed.

Lemma with_pair_read (a d k : Z) (w : world) (x : Z) :
  EEPROM_read (with_pair a d k w) x
  = (if x =? a + 1 then to_byte k
     else if x =? a then to_byte d else EEPROM_read w x).
Proof.
  unfold with_pair.
  destruct (Z.eqb_spec x (a + 1)) as [->|H1].
  - apply EEPROM_read_write_same.
  - rewrite EEPROM_read_write_other by exact H1.
    destruct (Z.eqb_spec x a) as [->|H2].
    + apply EEPROM_read_write_same.
    + now apply EEPROM_read_write_other.
Qed.

Lemma with_pair_same_cells (a d k : Z) (w1 w2 : world) :
  (forall x, EEPROM_read w1 x = EEPROM_read w2 x) ->
  forall x, EEPROM_read (with_pair a d k w1) x
            = EEPROM_read (with_pair a d k w2) x.
Proof. intros H x. rewrite !with_pair_read, H. reflexivity. Qed.

(** A turn of the recording loop that finds every button released. *)
Lemma record_loop_idle_turn
    (f : nat) (track last len : Z) (w : world)
    (t : Z) (cs : list Z) (ps : list lines) :
  pins w = all_released :: ps -> clock w = t :: cs ->
  exists w',
    record_loop (S f) track last len w = record_loop f track last len w' /\
    pins w' = ps /\ clock w' = cs /\
    forall a, EEPROM_read w' a = EEPROM_read w a.
Proof.
  intros Hp Hc. cbn [record_loop].
  match goal with
  | |- context [millis ?x] => rewrite (millis_cons x t cs Hc)
  end.
  match goal with
  | |- context [check_buttons ?x] => set (wb := x)
  end.
  assert (Hpb : pins wb = all_released :: ps) by exact Hp.
  assert (Hl : current_lines wb = all_released)
    by (unfold current_lines; now rewrite Hpb).
  rewrite (check_buttons_released wb Hl).
  eexists. split; [reflexivity|]. cbn [pins clock].
  split; [now rewrite Hpb|]. split; reflexivity.
Qed.

(** The turn of the recording loop that finds YES, NO or SNAKE pressed. *)
Lemma record_loop_key_turn
    (f : nat) (track start last len : Z) (w : world)
    (t t_rel : Z) (cs : list Z) (l : lines) (hs ps : list lines) :
  get_start_mem_location track = Some start ->
  0 <= len <= 255 ->
  priority_command l = YES_CMD \/ priority_command l = NO_CMD \/
  priority_command l = SNAKE_CMD ->
  Forall is_pressed hs ->
  pins w = l :: hs ++ all_released :: ps ->
  clock w = t :: t_rel :: cs ->
  exists w',
    record_loop (S f) track last len w
    = record_loop f track (to_long (to_ulong t_rel)) (to_byte (len + 1)) w' /\
    pins w' = ps /\ clock w' = cs /\
    forall a, EEPROM_read w' a
              = EEPROM_read
                  (with_pair (start + 2 * len)
                     (measured_delay (to_ulong t) last)
                     (kind_of_command (priority_command l)) w) a.
Proof.
  intros Hstart Hlen Hkey Hh Hp Hc. cbn [record_loop].
  match goal with
  | |- context [millis ?x] => rewrite (millis_cons x t (t_rel :: cs) Hc)
  end.
  match goal with
  | |- context [check_buttons ?x] => set (wb := x)
  end.
  assert (Hpb : pins wb = l :: hs ++ all_released :: ps) by exact Hp.
  assert (Hcb : clock wb = t_rel :: cs) by reflexivity.
  assert (Heb : eeprom wb = eeprom w) by reflexivity.
  assert (Hl : current_lines wb = l)
    by (unfold current_lines; now rewrite Hpb).
  pose proof (check_buttons_userInput wb) as Hu.
  pose proof (check_buttons_pressed wb) as Hpr.
  pose proof (check_buttons_keeps wb) as (He1 & _ & Hc1 & _ & Hp1).
  rewrite Hl in Hu, Hpr. rewrite Hpb in Hp1. cbn [tl] in Hp1.
  clearbody wb.
  destruct (check_buttons wb) as [pressed wc]. cbn [fst snd] in *.
  assert (Hpressed : pressed = true).
  { rewrite Hpr. destruct Hkey as [E|[E|E]]; rewrite E; reflexivity. }
  rewrite Hpressed.
  set (wd := digitalWrite RED_LED_pin HIGH wc).
  assert (Hud : userInput wd = priority_command l) by exact Hu.
  destruct (record_press_key track start
              (measured_delay (to_ulong t) last) len wd Hstart Hlen)
    as (we & Hrp & Hpe & Hce & Hee); [now rewrite Hud|].
  rewrite Hrp. cbn [bind].
  assert (Hpe' : pins we = hs ++ all_released :: ps)
    by (rewrite Hpe; exact Hp1).
  destruct (wait_release_held hs ps we Hh Hpe')
    as (Hpf & Hef & _ & Hcf & _).
  set (wf := wait_release we) in *.
  assert (Hcf' : clock wf = t_rel :: cs)
    by (rewrite Hcf, Hce; change (clock wd) with (clock wc); congruence).
  rewrite (millis_cons wf t_rel cs Hcf').
  eexists. split; [reflexivity|]. cbn [digitalWrite emit pins clock].
  split; [exact Hpf|]. split; [reflexivity|].
  intros a. unfold EEPROM_read at 1. cbn [digitalWrite emit eeprom].
  rewrite Hef. fold (EEPROM_read we a). rewrite Hee, Hud.
  apply with_pair_same_cells. intros x. unfold EEPROM_read.
  change (eeprom wd) with (eeprom wc). now rewrite He1, Heb.
Qed.

(** The turn of the recording loop that finds REC pressed. *)
Lemma record_loop_stop_turn
    (f : nat) (track start last len : Z) (w : world)
    (t t_rel : Z) (cs : list Z) (l : lines) (hs ps : list lines) :
  get_start_mem_location track = Some start ->
  0 <= len <= 255 ->
  priority_command l = RECORD_CMD ->
  Forall is_pressed hs ->
  pins w = l :: hs ++ all_released :: ps ->
  clock w = t :: t_rel :: cs ->
  exists w',
    record_loop (S f) track last len w = Returns w' /\
    forall a, EEPROM_read w' a
              = EEPROM_read
                  (with_pair (start + 2 * len)
                     (measured_delay (to_ulong t) last) END w) a.
Proof.
  intros Hstart Hlen Hkey Hh Hp Hc. cbn [record_loop].
  match goal with
  | |- context [millis ?x] => rewrite (millis_cons x t (t_rel :: cs) Hc)
  end.
  match goal with
  | |- context [check_buttons ?x] => set (wb := x)
  end.
  assert (Hpb : pins wb = l :: hs ++ all_released :: ps) by exact Hp.
  assert (Hcb : clock wb = t_rel :: cs) by reflexivity.
  assert (Heb : eeprom wb = eeprom w) by reflexivity.
  assert (Hl : current_lines wb = l)
    by (unfold current_lines; now rewrite Hpb).
  pose proof (check_buttons_userInput wb) as Hu.
  pose proof (check_buttons_pressed wb) as Hpr.
  pose proof (check_buttons_keeps wb) as (He1 & _ & Hc1 & _ & Hp1).
  rewrite Hl in Hu, Hpr. rewrite Hpb in Hp1. cbn [tl] in Hp1.
  clearbody wb.
  destruct (check_buttons wb) as [pressed wc]. cbn [fst snd] in *.
  assert (Hpressed : pressed = true) by (rewrite Hpr, Hkey; reflexivity).
  rewrite Hpressed.
  set (wd := digitalWrite RED_LED_pin HIGH wc).
  assert (Hud : userInput wd = RECORD_CMD) by (rewrite <- Hkey; exact Hu).
  destruct (record_press_stop track start
              (measured_delay (to_ulong t) last) len wd Hstart Hlen Hud)
    as (we & Hrp & Hpe & Hce & Hee).
  rewrite Hrp. cbn [bind].
  assert (Hpe' : pins we = hs ++ all_released :: ps)
    by (rewrite Hpe; exact Hp1).
  destruct (wait_release_held hs ps we Hh Hpe')
    as (Hpf & Hef & _ & Hcf & _).
  set (wf := wait_release we) in *.
  assert (Hcf' : clock wf = t_rel :: cs)
    by (rewrite Hcf, Hce; change (clock wd) with (clock wc); congruence).
  rewrite (millis_cons wf t_rel cs Hcf').
  eexists. split; [reflexivity|].
  intros a. unfold EEPROM_read at 1. cbn [digitalWrite emit eeprom].
  rewrite Hef. fold (EEPROM_read we a). rewrite Hee.
  apply with_pair_same_cells. intros x. unfold EEPROM_read.
  change (eeprom wd) with (eeprom wc). now rewrite He1, Heb.
Qed.

Lemma with_pairs_same_cells (ps : list (Z * Z)) :
  forall (a : Z) (w1 w2 : world),
    (forall x, EEPROM_read w1 x = EEPROM_read w2 x) ->
    forall x, EEPROM_read (with_pairs a ps w1) x
              = EEPROM_read (with_pairs a ps w2) x.
Proof.
  induction ps as [|p ps IH]; intros a w1 w2 H; cbn [with_pairs];
    [exact H|].
  apply IH. now apply with_pair_same_cells.
Qed.

Lemma with_pairs_app (ps qs : list (Z * Z)) :
  forall (a : Z) (w : world),
    with_pairs a (ps ++ qs) w
    = with_pairs (a + 2 * Z.of_nat (List.length ps)) qs (with_pairs a ps w).
Proof.
  induction ps as [|p ps IH]; intros a w; cbn [with_pairs app List.length].
  - f_equal. lia.
  - rewrite IH. f_equal. lia.
Qed.

(** The pairs are written from cell [a] upwards. *)
Lemma with_pairs_below (ps : list (Z * Z)) :
  forall (a : Z) (w : world) (x : Z),
    x < a -> EEPROM_read (with_pairs a ps w) x = EEPROM_read w x.
Proof.
  induction ps as [|p ps IH]; intros a w x Hx; cbn [with_pairs];
    [reflexivity|].
  rewrite IH by lia. rewrite with_pair_read.
  destruct (Z.eqb_spec x (a + 1)); [lia|].
  destruct (Z.eqb_spec x a); [lia|reflexivity].
Qed.

Lemma with_pairs_nth (ps : list (Z * Z)) :
  forall (a : Z) (w : world) (i : nat),
    Forall byte_pair ps -> (i < List.length ps)%nat ->
    (EEPROM_read (with_pairs a ps w) (a + 2 * Z.of_nat i),
     EEPROM_read (with_pairs a ps w) (a + 2 * Z.of_nat i + 1))
    = nth i ps (0, 0).
Proof.
  induction ps as [|p ps IH]; intros a w i Hb Hi; [cbn in Hi; lia|].
  inversion Hb as [|? ? [Hd Hk] Hb']; subst.
  cbn [with_pairs]. destruct i as [|i].
  - cbn [nth]. rewrite !with_pairs_below by lia.
    rewrite !with_pair_read.
    replace (a + 2 * Z.of_nat 0) with a by lia.
    rewrite Z.eqb_refl.
    destruct (Z.eqb_spec a (a + 1)); [lia|]. rewrite Z.eqb_refl.
    rewrite !to_byte_small by assumption. now destruct p.
  - cbn [nth]. cbn [List.length] in Hi.
    rewrite <- (IH (a + 2) (with_pair a (fst p) (snd p) w) i Hb')
      by lia.
    f_equal; f_equal; lia.
Qed.

Lemma map_nth_seq {A : Type} (d : A) (l : list A) :
  map (fun i => nth i l d) (seq 0 (List.length l)) = l.
Proof.
  induction l as [|x l IH]; [reflexivity|].
  cbn [List.length seq map nth]. f_equal.
  rewrite <- seq_shift, map_map. exact IH.
Qed.

(** The turns of the loop that find nothing pressed, one for each timer
    value of [ts]. *)
Lemma record_loop_idle_run (track last len : Z) (ts : list Z) :
  forall (w : world) (F : nat) (cs : list Z) (ps : list lines),
    pins w = repeat all_released (List.length ts) ++ ps ->
    clock w = ts ++ cs ->
    (List.length (pins w) < F)%nat ->
    exists w' F',
      record_loop F track last len w = record_loop F' track last len w' /\
      pins w' = ps /\ clock w' = cs /\ (List.length (pins w') < F')%nat /\
      forall a, EEPROM_read w' a = EEPROM_read w a.
Proof.
  induction ts as [|t ts IH]; intros w F cs ps Hp Hc HF.
  - exists w, F. now repeat split.
  - cbn [List.length repeat app] in Hp, Hc.
    destruct F as [|f]; [lia|].
    destruct (record_loop_idle_turn f track last len w t (ts ++ cs) _ Hp Hc)
      as (w1 & Hrun & Hp1 & Hc1 & He1).
    destruct (IH w1 f cs ps Hp1 Hc1) as (w' & F' & Hrun' & Hp' & Hc' & HF' & He').
    { rewrite Hp1. rewrite Hp in HF. cbn [List.length] in HF. lia. }
    exists w', F'. rewrite Hrun, Hrun'. repeat split; try assumption.
    intros a. now rewrite He', He1.
Qed.

Lemma pressed_pairs_length (ps : list press) :
  forall since, List.length (pressed_pairs since ps) = List.length ps.
Proof.
  induction ps as [|p ps IH]; intros since; cbn; [reflexivity|].
  now rewrite IH.
Qed.

Lemma pressed_pairs_bytes (ps : list press) :
  forall since,
    presses_ok since ps ->
    Forall (fun p => byte_pair p /\ snd p <> END) (pressed_pairs since ps).
Proof.
  induction ps as [|p ps IH]; intros since Hok; cbn [pressed_pairs];
    constructor.
  - destruct Hok as ((Ht & Hk & _) & _).
    pose proof (kind_of_command_key _ Hk) as [Hne Hr].
    pose proof (clamped_tenths_range (pressed_at p - since) ltac:(lia)).
    unfold byte_pair. cbn [fst snd]. repeat split; (assumption || lia).
  - apply IH. apply Hok.
Qed.

(** The turns of the loop for the presses [prs], from [len] recorded
    events on: the pairs of the presses are written behind one another. *)
Lemma record_loop_presses (track start : Z) (prs : list press) :
  get_start_mem_location track = Some start ->
  forall (since len : Z) (w : world) (F : nat)
         (cs : list Z) (ps : list lines),
    presses_ok since prs ->
    0 <= len -> len + Z.of_nat (List.length prs) <= 255 ->
    pins w = flat_map press_pins prs ++ ps ->
    clock w = flat_map press_clock prs ++ cs ->
    (List.length (pins w) < F)%nat ->
    exists w' F',
      record_loop F track (to_long (to_ulong since)) len w
      = record_loop F' track (to_long (to_ulong (last_release since prs)))
          (len + Z.of_nat (List.length prs)) w' /\
      pins w' = ps /\ clock w' = cs /\ (List.length (pins w') < F')%nat /\
      forall a, EEPROM_read w' a
                = EEPROM_read
                    (with_pairs (start + 2 * len) (pressed_pairs since prs) w)
                    a.
Proof.
  intros Hstart.
  induction prs as [|p prs IH]; intros since len w F cs ps Hok Hlen Hmax
    Hp Hc HF.
  - exists w, F. cbn [List.length last_release pressed_pairs with_pairs].
    rewrite Z.add_0_r. now repeat split.
  - destruct Hok as ((Ht & Hk & Hh) & Hok').
    cbn [flat_map] in Hp, Hc. unfold press_pins in Hp at 1.
    unfold press_clock in Hc at 1. rewrite <- !app_assoc in Hp, Hc.
    cbn [List.length] in Hmax.
    destruct (record_loop_idle_run track (to_long (to_ulong since)) len
                (idle p) w F _ _ Hp Hc HF)
      as (w1 & F1 & Hrun1 & Hp1 & Hc1 & HF1 & He1).
    cbn [app] in Hp1, Hc1. rewrite <- app_assoc in Hp1. cbn [app] in Hp1.
    destruct F1 as [|f1]; [lia|].
    destruct (record_loop_key_turn f1 track start (to_long (to_ulong since))
                len w1 (pressed_at p) (released_at p) _ (pressed_lines p)
                (held p) _ Hstart ltac:(lia) Hk Hh Hp1 Hc1)
      as (w2 & Hrun2 & Hp2 & Hc2 & He2).
    rewrite to_byte_small in Hrun2 by lia.
    destruct (IH (released_at p) (len + 1) w2 f1 cs ps Hok' ltac:(lia)
                ltac:(lia) Hp2 Hc2)
      as (w' & F' & Hrun' & Hp' & Hc' & HF' & He').
    { rewrite Hp2. rewrite Hp1 in HF1. cbn [List.length] in HF1.
      rewrite length_app in HF1. cbn [List.length] in HF1. lia. }
    exists w', F'. rewrite Hrun1, Hrun2, Hrun'.
    cbn [last_release List.length pressed_pairs with_pairs fst snd].
    split; [f_equal; lia|]. repeat split; try assumption.
    intros a. rewrite He'.
    replace (start + 2 * (len + 1)) with (start + 2 * len + 2) by lia.
    apply with_pairs_same_cells. intros x. rewrite He2.
    rewrite (measured_delay_clamped _ _ Ht).
    apply with_pair_same_cells. exact He1.
Qed.

(** [record_track] on a session: it returns, and the EEPROM holds the
    pairs of the presses followed by the measured delay of the press of REC
    and [END], written from the first cell of the track on. *)
Lemma record_track_session (w : world) (s : session) (track start : Z) :
  EEPROM_read w 0 = track ->
  get_start_mem_location track = Some start ->
  pins w = session_pins s ->
  clock w = session_clock s ->
  session_ok s ->
  (List.length (presses s) <= 255)%nat ->
  exists w1 d_end,
    record_track w = Returns w1 /\ 0 <= d_end <= 255 /\
    forall a,
      EEPROM_read w1 a
      = EEPROM_read
          (with_pairs start
             (pressed_pairs (started_at s) (presses s) ++ [(d_end, END)]) w)
          a.
Proof.
  intros Htrack Hstart Hp Hc (Hh0 & Hok & Hstop & Hhs) Hn.
  unfold record_track. cbv zeta.
  set (w0 := blink_led RED_LED_pin w).
  assert (Hp0 : pins w0 = still_held s ++ all_released
                  :: flat_map press_pins (presses s) ++ press_pins (stop s))
    by exact Hp.
  destruct (wait_release_held _ _ w0 Hh0 Hp0) as (Hp1 & He1 & _ & Hc1 & _).
  set (w1 := wait_release w0) in *.
  assert (Ht1 : EEPROM_read w1 0 = track)
    by (unfold EEPROM_read; rewrite He1; exact Htrack).
  rewrite Ht1.
  set (w2 := Serial_print_num track (Serial_print "Recording track " w1)).
  assert (Hc2 : clock w2 = started_at s
                  :: flat_map press_clock (presses s) ++ press_clock (stop s))
    by (change (clock w2) with (clock w1); rewrite Hc1; exact Hc).
  rewrite (millis_cons w2 _ _ Hc2).
  set (w3 := mkWorld _ _ _ _ _ _ _ _).
  assert (Hp3 : pins w3 = flat_map press_pins (presses s)
                           ++ press_pins (stop s)) by exact Hp1.
  assert (He3 : forall a, EEPROM_read w3 a = EEPROM_read w a)
    by (intros a; unfold EEPROM_read;
        change (eeprom w3) with (eeprom w1); now rewrite He1).
  destruct (record_loop_presses track start (presses s) Hstart
              (started_at s) 0 w3 (S (List.length (pins w3)))
              (press_clock (stop s)) (press_pins (stop s)) Hok
              ltac:(lia) ltac:(lia) Hp3 eq_refl ltac:(lia))
    as (w4 & F4 & Hrun4 & Hp4 & Hc4 & HF4 & He4).
  change (pins w2) with (pins w3). rewrite Hrun4.
  unfold press_pins in Hp4. unfold press_clock in Hc4.
  destruct (record_loop_idle_run track
              (to_long (to_ulong (last_release (started_at s) (presses s))))
              (0 + Z.of_nat (List.length (presses s)))
              (idle (stop s)) w4 F4 _ _ Hp4 Hc4 HF4)
    as (w5 & F5 & Hrun5 & Hp5 & Hc5 & HF5 & He5).
  rewrite Hrun5.
  destruct F5 as [|f5]; [lia|].
  destruct (record_loop_stop_turn f5 track start
              (to_long (to_ulong (last_release (started_at s) (presses s))))
              (0 + Z.of_nat (List.length (presses s))) w5
              (pressed_at (stop s)) (released_at (stop s)) []
              (pressed_lines (stop s)) (held (stop s)) []
              Hstart ltac:(lia) Hstop Hhs Hp5 Hc5)
    as (w6 & Hrun6 & He6).
  exists w6. eexists. split; [exact Hrun6|].
  split; [apply measured_delay_range|].
  intros a. rewrite He6, with_pairs_app. cbn [with_pairs fst snd].
  rewrite pressed_pairs_length.
  replace (start + 2 * (0 + Z.of_nat (List.length (presses s))))
    with (start + 2 * Z.of_nat (List.length (presses s))) by lia.
  apply with_pair_same_cells. intros x. rewrite He5, He4.
  replace (start + 2 * 0) with start by lia.
  apply with_pairs_same_cells. exact He3.
Qed.

Lemma pressed_pairs_calls (prs : list press) :
  forall since,
    flat_map (fun p => call_of_kind (snd p)) (pressed_pairs since prs)
    = flat_map (fun p => call_of_kind
                           (kind_of_command
                              (priority_command (pressed_lines p)))) prs.
Proof.
  induction prs as [|p prs IH]; intros since; [reflexivity|].
  cbn [pressed_pairs flat_map snd]. now rewrite IH.
Qed.

Lemma skipn_length_app {A : Type} (l1 l2 : list A) :
  skipn (List.length l1) (l1 ++ l2) = l2.
Proof. induction l1 as [|x l1 IH]; [reflexivity | exact IH]. Qed.

(** The first pairs of a region that holds the pairs [all]. *)
Lemma first_pairs_recorded (w w1 : world) (start : Z) (all : list (Z * Z)) :
  Forall byte_pair all ->
  (forall a, EEPROM_read w1 a = EEPROM_read (with_pairs start all w) a) ->
  first_pairs w1 start (List.length all) = all.
Proof.
  intros Hb He. unfold first_pairs.
  rewrite <- (map_nth_seq (0, 0) all) at 2.
  apply map_ext_in. intros i Hi. apply in_seq in Hi.
  unfold pair_at. rewrite !He. apply with_pairs_nth; [exact Hb | lia].
Qed.

Lemma first_pairs_nth (w : world) (start : Z) (n i : nat) :
  (i < n)%nat -> nth i (first_pairs w start n) (0, 0) = pair_at w start i.
Proof.
  intros Hi. unfold first_pairs.
  rewrite (nth_indep _ (0, 0) (pair_at w start 0%nat))
    by (rewrite length_map, length_seq; exact Hi).
  rewrite map_nth. now rewrite seq_nth.
Qed.

(** C2 (amended): after a recording session of at most 50 presses of YES,
    NO and SNAKE ended by a press of REC, playing the track at once sends
    out the header, then for each press in order the wait of its delay and
    its action, the delay being the time from the start of the session or
    from the release of the press before to the press, in tenths of a
    second and at most 255, then events with no call of an actuator
    routine: the actuator calls are exactly those of the presses. *)
Theorem record_then_play_up_to_50 (w : world) (s : session) (track start : Z) :
  EEPROM_read w 0 = track ->
  get_start_mem_location track = Some start ->
  pins w = session_pins s ->
  clock w = session_clock s ->
  session_ok s ->
  (List.length (presses s) <= 50)%nat ->
  exists tr rest,
    playback_after_recording w = Some tr /\
    tr = play_header track start
         ++ flat_map pair_events (pressed_pairs (started_at s) (presses s))
         ++ rest /\
    actuations rest = [] /\
    actuations tr
    = flat_map (fun p => call_of_kind
                           (kind_of_command
                              (priority_command (pressed_lines p))))
               (presses s).
Proof.
  intros Htrack Hstart Hp Hc Hok Hn.
  pose proof (get_start_mem_location_some _ _ Hstart) as (_ & Hs & _).
  destruct (record_track_session w s track start Htrack Hstart Hp Hc Hok
              ltac:(lia)) as (w1 & d_end & Hrec & Hd & He).
  destruct Hok as (_ & Hok & _).
  pose proof (pressed_pairs_bytes _ _ Hok) as Hpairs.
  pose proof (pressed_pairs_length (presses s) (started_at s)) as Hlen.
  set (pairs := pressed_pairs (started_at s) (presses s)) in *.
  set (n := List.length (presses s)) in *.
  assert (Hall : Forall byte_pair (pairs ++ [(d_end, END)])).
  { apply Forall_app. split.
    - eapply Forall_impl; [|exact Hpairs]. now intros p [H _].
    - constructor; [|constructor]. split; [exact Hd|]. vm_compute.
      split; discriminate. }
  pose proof (first_pairs_recorded w w1 start _ Hall He) as Hfirst.
  rewrite length_app, Hlen in Hfirst. cbn [List.length] in Hfirst.
  replace (n + 1)%nat with (S n) in Hfirst by lia.
  assert (Hfirst_n : first_pairs w1 start n = pairs /\
                     pair_at w1 start n = (d_end, END)).
  { rewrite first_pairs_S in Hfirst. apply app_inj_tail in Hfirst.
    exact Hfirst. }
  destruct Hfirst_n as [Hfn Hlast].
  assert (Hkinds : forall i, (i < n)%nat -> snd (pair_at w1 start i) <> END).
  { intros i Hi. rewrite <- (first_pairs_nth w1 start n i Hi), Hfn.
    assert (Hin : In (nth i pairs (0, 0)) pairs)
      by (apply nth_In; lia).
    rewrite Forall_forall in Hpairs. now apply Hpairs. }
  assert (Htrack1 : EEPROM_read w1 0 = track)
    by (rewrite He, with_pairs_below by lia; exact Htrack).
  assert (Hacts : actuations
                    (play_header track start ++ flat_map pair_events pairs)
                  = flat_map (fun p => call_of_kind
                                (kind_of_command
                                   (priority_command (pressed_lines p))))
                      (presses s)).
  { rewrite actuations_app, actuations_pairs. cbn [app play_header actuations
      filter]. apply pressed_pairs_calls. }
  destruct (Nat.eq_dec n 50) as [E50|N50].
  - (* 50 presses: the region holds no END *)
    exists (play_header track start ++ flat_map pair_events pairs ++ []), [].
    split; [|split; [reflexivity|split; [reflexivity|]]].
    + unfold playback_after_recording. rewrite Hrec.
      rewrite (play_track_no_END w1 track start Htrack1 Hstart)
        by (intros i Hi; apply Hkinds; lia).
      rewrite <- E50, Hfn, app_nil_r. cbn [emit trace].
      now rewrite skipn_length_app.
    + rewrite app_nil_r. exact Hacts.
  - (* fewer: the END pair is played last *)
    assert (Hplay := play_track_to_END w1 track start n Htrack1 Hstart
                       ltac:(lia) ltac:(now rewrite Hlast) Hkinds).
    assert (Hend : pair_events (pair_at w1 start n)
                   = [Serial_text "event_delay: "; Serial_num d_end;
                      Delay (d_end * 100); Serial_text "END"])
      by (rewrite Hlast; reflexivity).
    exists (play_header track start ++ flat_map pair_events pairs
            ++ pair_events (pair_at w1 start n)),
           (pair_events (pair_at w1 start n)).
    split; [|split; [reflexivity|split]].
    + unfold playback_after_recording. rewrite Hrec, Hplay.
      rewrite first_pairs_S, Hfn, flat_map_app. cbn [flat_map emit trace].
      now rewrite app_nil_r, skipn_length_app.
    + rewrite Hend. reflexivity.
    + rewrite app_assoc, actuations_app, Hacts, Hend. cbn. apply app_nil_r.
Qed.

Ltac session_facts :=
  repeat match goal with
         | |- _ /\ _ => split
         | |- Forall _ _ => constructor
         | |- is_pressed _ => vm_compute; discriminate
         | |- True => exact I
         | |- _ \/ _ => left; reflexivity
         | |- _ = _ => reflexivity
         | |- _ <= _ => vm_compute; discriminate
         | |- _ < _ => reflexivity
         | |- press_ok _ _ => unfold press_ok
         | |- session_ok _ => unfold session_ok
         | |- _ =>
             progress cbn [presses_ok presses started_at stop still_held
                           held pressed_at pressed_lines released_at idle]
         end.

Lemma record_then_play_up_to_50_witness :
  exists tr rest,
    playback_after_recording (session_world factory_eeprom two_yes_session)
    = Some tr /\
    tr = play_header 1 1
         ++ flat_map pair_events
              (pressed_pairs (started_at two_yes_session)
                 (presses two_yes_session))
         ++ rest /\
    actuations rest = [] /\
    actuations tr
    = flat_map (fun p => call_of_kind
                           (kind_of_command
                              (priority_command (pressed_lines p))))
               (presses two_yes_session).
Proof.
  apply (record_then_play_up_to_50
           (session_world factory_eeprom two_yes_session) two_yes_session 1 1
           eq_refl eq_refl eq_refl eq_refl).
  - unfold two_yes_session. session_facts.
  - cbn. lia.
Defined.

(** C2 as stated fails for a session of more than 50 presses: of 51
    presses of YES, one a second, on track 1, playback performs 50. *)
Lemma playback_of_51_presses_performs_50 :
  exists tr,
    playback_after_recording (session_world factory_eeprom (yes_session 51))
    = Some tr /\
    actuations tr = repeat Call_yes 50 /\
    flat_map (fun p => call_of_kind
                         (kind_of_command
                            (priority_command (pressed_lines p))))
             (presses (yes_session 51))
    = repeat Call_yes 51 /\
    actuations tr
    <> flat_map (fun p => call_of_kind
                            (kind_of_command
                               (priority_command (pressed_lines p))))
                (presses (yes_session 51)).
Proof.
  eexists. split; [vm_compute; reflexivity|].
  split; [vm_compute; reflexivity|].
  split; [vm_compute; reflexivity|].
  vm_compute. discriminate.
Qed.

(** C4: the press of REC that ends a session does not record the pair
    (0, END): the delay byte is the measured time since the last release.
    In the session of YES at 5.3 s, YES 5.1 s later and REC 0.2 s after
    that, the first six cells of track 1 end up as 53, YES, 51, YES,
    2, END. *)
Theorem record_END_pair_keeps_measured_delay :
  match record_track (session_world factory_eeprom two_yes_session) with
  | Returns w1 => map (EEPROM_read w1) [1; 2; 3; 4; 5; 6]
  | _ => []
  end
  = [53; YES; 51; YES; 2; END].
Proof. vm_compute. reflexivity. Qed.

(* ------------------------------------------------------------------ *)
(** ** The bounds on the loops are enough *)

(** Once the wait for release has as many turns as there are entries of
    [pins] left, more turns change nothing. *)
Lemma wait_release_fuel_enough (n : nat) :
  forall (m : nat) (w : world),
    (List.length (pins w) <= n)%nat -> (List.length (pins w) <= m)%nat ->
    wait_release_fuel n w = wait_release_fuel m w.
Proof.
  induction n as [|n IH]; intros m w Hn Hm.
  - assert (Hp : pins w = []) by (destruct (pins w); [reflexivity|cbn in Hn; lia]).
    pose proof (check_buttons_pressed w) as Hpr.
    unfold current_lines in Hpr. rewrite Hp in Hpr. cbn in Hpr.
    destruct m; cbn [wait_release_fuel];
      destruct (check_buttons w) as [pressed w1]; cbn [fst] in Hpr;
      subst pressed; reflexivity.
  - pose proof (check_buttons_pressed w) as Hpr.
    pose proof (check_buttons_keeps w) as (_ & _ & _ & _ & Hp1).
    destruct m as [|m].
    + assert (Hp : pins w = [])
        by (destruct (pins w); [reflexivity|cbn in Hm; lia]).
      unfold current_lines in Hpr. rewrite Hp in Hpr. cbn in Hpr.
      cbn [wait_release_fuel].
      destruct (check_buttons w) as [pressed w1]; cbn [fst] in Hpr;
        subst pressed; reflexivity.
    + cbn [wait_release_fuel].
      destruct (check_buttons w) as [pressed w1]. cbn [fst snd] in *.
      destruct pressed; [|reflexivity].
      apply IH; rewrite Hp1; destruct (pins w); cbn in *; lia.
Qed.

Lemma wait_release_pins_length (n : nat) :
  forall w : world,
    (List.length (pins (wait_release_fuel n w)) <= List.length (pins w))%nat.
Proof.
  induction n as [|n IH]; intros w; cbn [wait_release_fuel];
    pose proof (check_buttons_keeps w) as (_ & _ & _ & _ & Hp1);
    destruct (check_buttons w) as [pressed w1]; cbn [snd] in Hp1;
    assert (H1 : (List.length (pins w1) <= List.length (pins w))%nat)
      by (rewrite Hp1; destruct (pins w); cbn; lia);
    destruct pressed; try exact H1.
  specialize (IH w1). lia.
Qed.

(** The check for a manual reset runs three turns at most. *)
Lemma manual_reset_three_turns (fuel : nat) (w : world) :
  (3 <= fuel)%nat -> manual_reset fuel 0 w = manual_reset 3 0 w.
Proof.
  intros Hf. destruct fuel as [|[|[|fuel]]]; try lia.
  cbn [manual_reset].
  destruct (check_buttons w) as [p1 w1].
  destruct (p1 && (userInput w1 =? RECORD_CMD)); [|reflexivity].
  change (to_int (0 + 1) =? 3) with false. cbv iota.
  destruct (check_buttons (delay 1000 (blink_led RED_LED_pin w1)))
    as [p2 w2].
  destruct (p2 && (userInput w2 =? RECORD_CMD)); [|reflexivity].
  change (to_int (to_int (0 + 1) + 1) =? 3) with false. cbv iota.
  destruct (check_buttons (delay 1000 (blink_led RED_LED_pin w2)))
    as [p3 w3].
  destruct (p3 && (userInput w3 =? RECORD_CMD)); [|reflexivity].
  change (to_int (to_int (to_int (0 + 1) + 1) + 1) =? 3) with true.
  reflexivity.
Qed.

Lemma record_press_pins (track d len : Z) (w w' : world) :
  snd (record_press track d len w) = Returns w' -> pins w' = pins w.
Proof.
  unfold record_press, record_event.
  destruct (get_start_mem_location track) as [start|];
    repeat match goal with
           | |- context [if ?c then _ else _] => destruct c
           end;
    cbn [snd bind]; intros H; inversion H; reflexivity.
Qed.

Lemma record_press_no_spin (track d len : Z) (w w' : world) :
  snd (record_press track d len w) <> Spins w'.
Proof.
  unfold record_press, record_event.
  destruct (get_start_mem_location track) as [start|];
    repeat match goal with
           | |- context [if ?c then _ else _] => destruct c
           end;
    cbn [snd bind]; discriminate.
Qed.

(** The recording loop is only left as [Spins] when [pins] is used up:
    with at least as many turns as entries of [pins], [Spins] means that
    the user has stopped touching the buttons without pressing REC. *)
Lemma record_loop_spins_used_up (F : nat) :
  forall (track last len : Z) (w w' : world),
    (List.length (pins w) <= F)%nat ->
    record_loop F track last len w = Spins w' ->
    pins w' = [].
Proof.
  induction F as [|f IH]; intros track last len w w' HF Hrun.
  - cbn in Hrun. inversion Hrun; subst.
    destruct (pins w'); [reflexivity | cbn in HF; lia].
  - cbn [record_loop] in Hrun.
    match type of Hrun with
    | context [millis ?x] =>
        pose proof (millis_keeps x) as (_ & Hpm & _);
        destruct (millis x) as [t wm]
    end.
    cbn [snd] in Hpm.
    match type of Hrun with
    | context [check_buttons ?x] =>
        pose proof (check_buttons_keeps x) as (_ & _ & _ & _ & Hpc);
        pose proof (check_buttons_pressed x) as Hpr;
        assert (Hpx : pins x = pins w) by exact Hpm;
        destruct (check_buttons x) as [pressed wc]
    end.
    cbn [fst snd] in Hpc, Hpr. rewrite Hpx in Hpc.
    destruct pressed.
    + match type of Hrun with
      | context [record_press ?a ?b ?c ?x] =>
          pose proof (record_press_pins a b c x) as Hrp;
          pose proof (record_press_no_spin a b c x) as Hns;
          destruct (record_press a b c x) as [[len' status] o]
      end.
      cbn [snd] in Hrp, Hns.
      destruct o as [we| we |]; cbn [bind] in Hrun; try discriminate Hrun.
      * specialize (Hrp we eq_refl).
        pose proof (wait_release_pins_length (List.length (pins we)) we)
          as Hwl.
        fold (wait_release we) in Hwl.
        match type of Hrun with
        | context [millis ?x] =>
            pose proof (millis_keeps x) as (_ & Hpm2 & _);
            destruct (millis x) as [t2 wm2]
        end.
        cbn [snd] in Hpm2.
        destruct status; [|discriminate Hrun].
        eapply IH; [|exact Hrun].
        cbn [digitalWrite emit pins]. rewrite Hpm2.
        change (pins (digitalWrite RED_LED_pin HIGH wc)) with (pins wc)
          in Hrp.
        rewrite Hrp, Hpc in Hwl.
        destruct (pins w) as [|l ps].
        { unfold current_lines in Hpr. rewrite Hpx in Hpr.
          cbn in Hpr. discriminate Hpr. }
        cbn [tl List.length] in *. lia.
      * now elim (Hns we).
    + eapply IH; [|exact Hrun].
      rewrite Hpc. destruct (pins w); cbn in *; lia.
Qed.

(* ================================================================== *)
(** * Further properties *)

(* ------------------------------------------------------------------ *)
(** ** Factory reset *)

Lemma factory_reset_cell (w : world) (a : Z) :
  0 <= a <= 20 ->
  EEPROM_read (factory_reset w) a = nth (Z.to_nat a) factory_cells 0.
Proof.
  intros Ha. unfold factory_reset, EEPROM_read.
  rewrite wait_release_eeprom.
  assert (Hc : a = 0 \/ a = 1 \/ a = 2 \/ a = 3 \/ a = 4 \/ a = 5 \/ a = 6 \/
               a = 7 \/ a = 8 \/ a = 9 \/ a = 10 \/ a = 11 \/ a = 12 \/
               a = 13 \/ a = 14 \/ a = 15 \/ a = 16 \/ a = 17 \/ a = 18 \/
               a = 19 \/ a = 20) by lia.
  repeat (destruct Hc as [Hc|Hc]; [subst a; vm_compute; reflexivity|]).
  subst a. vm_compute. reflexivity.
Qed.

(** X1: whatever the EEPROM held, after [factory_reset] cell 0 holds 1 and
    cells 1 to 20 hold [example_track_1]; no other cell is changed, so the
    other tracks and the fresh-chip mark keep their bytes, and a second
    reset leaves every cell as the first one did. *)
Theorem factory_reset_restores_track_1 (w : world) (a : Z) :
  EEPROM_read (factory_reset w) a
  = (if (0 <=? a) && (a <=? 20) then nth (Z.to_nat a) factory_cells 0
     else EEPROM_read w a) /\
  EEPROM_read (factory_reset (factory_reset w)) a
  = EEPROM_read (factory_reset w) a.
Proof.
  destruct (Z.leb_spec 0 a); destruct (Z.leb_spec a 20); cbn [andb];
    try solve [exfalso; lia].
  - rewrite !factory_reset_cell by lia. split; reflexivity.
  - rewrite !factory_reset_other_cells by lia. split; reflexivity.
  - rewrite !factory_reset_other_cells by lia. split; reflexivity.
Qed.

Lemma first_pairs_after_factory_reset (w : world) :
  first_pairs (factory_reset w) 1 10 = pairs_of example_track_1.
Proof.
  unfold first_pairs, pair_at. cbn [seq map].
  rewrite !factory_reset_cell by (cbn; lia). reflexivity.
Qed.

(** X2: after a factory reset, from any state, [play_track] plays the
    factory track: it waits 5.6 s, 5.1 s, 0.2 s, 7.2 s, 6.7 s, 4.3 s,
    5.5 s, 0.1 s and 1.5 s before the actions yes, yes, yes, no, no, no,
    yes, yes, snake, and ends on the [END] pair. *)
Theorem play_after_factory_reset (w : world) :
  play_track (factory_reset w)
  = Returns (emit (play_header 1 1
                   ++ flat_map pair_events (pairs_of example_track_1))
                  (factory_reset w)) /\
  actuations (flat_map pair_events (pairs_of example_track_1))
  = [Call_yes; Call_yes; Call_yes; Call_no; Call_no; Call_no;
     Call_yes; Call_yes; Call_snake] /\
  waits (flat_map pair_events (pairs_of example_track_1))
  = [5600; 5100; 200; 7200; 6700; 4300; 5500; 100; 1500; 0].
Proof.
  split; [|split; reflexivity].
  rewrite <- (first_pairs_after_factory_reset w).
  apply (play_track_to_END (factory_reset w) 1 1 9).
  - apply (factory_reset_cell w 0). lia.
  - reflexivity.
  - lia.
  - unfold pair_at. cbn [snd]. rewrite factory_reset_cell by (cbn; lia).
    reflexivity.
  - intros i Hi. unfold pair_at. cbn [snd].
    rewrite factory_reset_cell by lia.
    assert (Hc : (i = 0 \/ i = 1 \/ i = 2 \/ i = 3 \/ i = 4 \/ i = 5 \/
                  i = 6 \/ i = 7 \/ i = 8)%nat) by lia.
    repeat (destruct Hc as [Hc|Hc]; [subst i; vm_compute; discriminate|]).
    subst i. vm_compute. discriminate.
Qed.

(* ------------------------------------------------------------------ *)
(** ** Manual factory reset at start-up *)

Lemma resets_emit (es : list event) (w : world) :
  resets (trace (emit es w)) = (resets (trace w) + resets es)%nat.
Proof. unfold emit. cbn [trace]. apply resets_app. Qed.

(** A turn of the check for a manual reset whose poll reports Record. *)
Lemma manual_reset_record_turn (f : nat) (tp : Z) (w : world) :
  priority_command (current_lines w) = RECORD_CMD ->
  exists w2,
    manual_reset (S f) tp w
    = (if to_int (tp + 1) =? 3 then factory_reset w2
       else manual_reset f (to_int (tp + 1)) w2) /\
    pins w2 = tl (pins w) /\
    resets (trace w2) = resets (trace w) /\
    forall a, EEPROM_read w2 a = EEPROM_read w a.
Proof.
  intros Hc. cbn [manual_reset].
  pose proof (check_buttons_userInput w) as Hu.
  pose proof (check_buttons_pressed w) as Hpr.
  pose proof (check_buttons_keeps w) as (He & Ht & _ & _ & Hp).
  rewrite Hc in Hu, Hpr.
  destruct (check_buttons w) as [pressed w1]. cbn [fst snd] in *.
  rewrite Hpr, Hu. cbn [negb andb Z.eqb RECORD_CMD Pos.eqb].
  exists (delay 1000 (blink_led RED_LED_pin w1)).
  split; [reflexivity|]. split; [exact Hp|]. split.
  - unfold blink_led, delay, digitalWrite. rewrite !emit_emit.
    rewrite resets_emit, Ht. cbn. lia.
  - intros a. unfold EEPROM_read. cbn [delay blink_led digitalWrite emit eeprom].
    now rewrite He.
Qed.

Lemma manual_reset_other_turn (f : nat) (tp : Z) (w : world) :
  priority_command (current_lines w) <> RECORD_CMD ->
  resets (trace (manual_reset f tp w)) = resets (trace w) /\
  forall a, EEPROM_read (manual_reset f tp w) a = EEPROM_read w a.
Proof.
  intros Hc. destruct (manual_reset_not_record f tp w Hc) as [Ht He].
  split; [now rewrite Ht|]. intros a. unfold EEPROM_read. now rewrite He.
Qed.

Lemma reports_record_iff (l : lines) :
  reports_record l = true <-> priority_command l = RECORD_CMD.
Proof. unfold reports_record. apply Z.eqb_eq. Qed.

Lemma reports_record_no (l : lines) :
  reports_record l = false -> priority_command l <> RECORD_CMD.
Proof. unfold reports_record. apply Z.eqb_neq. Qed.

(** X3: the manual factory reset of [setup] happens exactly when the first
    three polls of the check all report Record (REC held, PLAY not pressed):
    then the factory reset runs once; otherwise, also when REC is let go
    after one or two polls, no reset runs and no cell of the EEPROM is
    changed. *)
Theorem manual_reset_needs_three_polls (w : world) :
  (three_record_polls w = true ->
   resets (trace (manual_reset 3 0 w)) = S (resets (trace w)) /\
   forall a, 0 <= a <= 20 ->
     EEPROM_read (manual_reset 3 0 w) a = nth (Z.to_nat a) factory_cells 0) /\
  (three_record_polls w = false ->
   resets (trace (manual_reset 3 0 w)) = resets (trace w) /\
   forall a, EEPROM_read (manual_reset 3 0 w) a = EEPROM_read w a).
Proof.
  unfold three_record_polls.
  assert (Hnone : priority_command all_released <> RECORD_CMD)
    by discriminate.
  destruct (pins w) as [|l1 ps1] eqn:Hp0.
  { split; [discriminate|]. intros _. apply manual_reset_other_turn.
    unfold current_lines. now rewrite Hp0. }
  assert (Hl1 : current_lines w = l1)
    by (unfold current_lines; now rewrite Hp0).
  destruct (reports_record l1) eqn:R1.
  2:{ assert (Hfalse : (match ps1 with
                        | l2 :: l3 :: _ =>
                            false && reports_record l2 && reports_record l3
                        | _ => false
                        end) = false)
        by (destruct ps1 as [|? [|? ?]]; reflexivity).
      rewrite Hfalse. split; [discriminate|]. intros _.
      apply manual_reset_other_turn. rewrite Hl1.
      now apply reports_record_no. }
  apply reports_record_iff in R1.
  destruct (manual_reset_record_turn 2 0 w ltac:(now rewrite Hl1))
    as (w2 & Hrun1 & Hp2 & Hr2 & He2).
  rewrite Hrun1. change (to_int (0 + 1) =? 3) with false. cbv iota.
  change (to_int (0 + 1)) with 1.
  rewrite Hp0 in Hp2. cbn [tl] in Hp2.
  destruct ps1 as [|l2 ps2].
  { split; [discriminate|]. intros _.
    destruct (manual_reset_other_turn 2 1 w2) as [Hr He].
    - unfold current_lines. now rewrite Hp2.
    - split; [lia|]. intros a. now rewrite He, He2. }
  assert (Hl2 : current_lines w2 = l2)
    by (unfold current_lines; now rewrite Hp2).
  cbn [andb].
  destruct (reports_record l2) eqn:R2.
  2:{ assert (Hfalse : (match ps2 with
                        | l3 :: _ => false && reports_record l3
                        | _ => false
                        end) = false)
        by (destruct ps2; reflexivity).
      rewrite Hfalse. split; [discriminate|]. intros _.
      destruct (manual_reset_other_turn 2 1 w2) as [Hr He].
      - rewrite Hl2. now apply reports_record_no.
      - split; [lia|]. intros a. now rewrite He, He2. }
  apply reports_record_iff in R2.
  destruct (manual_reset_record_turn 1 1 w2 ltac:(now rewrite Hl2))
    as (w3 & Hrun2 & Hp3 & Hr3 & He3).
  rewrite Hrun2. change (to_int (1 + 1) =? 3) with false. cbv iota.
  change (to_int (1 + 1)) with 2.
  rewrite Hp2 in Hp3. cbn [tl] in Hp3.
  destruct ps2 as [|l3 ps3].
  { split; [discriminate|]. intros _.
    destruct (manual_reset_other_turn 1 2 w3) as [Hr He].
    - unfold current_lines. now rewrite Hp3.
    - split; [lia|]. intros a. now rewrite He, He3, He2. }
  assert (Hl3 : current_lines w3 = l3)
    by (unfold current_lines; now rewrite Hp3).
  cbn [andb].
  destruct (reports_record l3) eqn:R3.
  - apply reports_record_iff in R3.
    destruct (manual_reset_record_turn 0 2 w3 ltac:(now rewrite Hl3))
      as (w4 & Hrun3 & _ & Hr4 & He4).
    rewrite Hrun3. change (to_int (2 + 1) =? 3) with true. cbv iota.
    split; [|discriminate]. intros _. split.
    + rewrite factory_reset_resets. lia.
    + intros a Ha. now apply factory_reset_cell.
  - split; [discriminate|]. intros _.
    destruct (manual_reset_other_turn 1 2 w3) as [Hr He].
    + rewrite Hl3. now apply reports_record_no.
    + split; [lia|]. intros a. now rewrite He, He3, He2.
Qed.

Lemma manual_reset_needs_three_polls_witness :
  resets (trace (manual_reset 3 0 (hold_record fresh_eeprom 3))) = 1%nat /\
  resets (trace (manual_reset 3 0 (hold_record fresh_eeprom 2))) = 0%nat.
Proof.
  split.
  - apply (proj1 (manual_reset_needs_three_polls
                    (hold_record fresh_eeprom 3)) eq_refl).
  - apply (proj2 (manual_reset_needs_three_polls
                    (hold_record fresh_eeprom 2)) eq_refl).
Defined.

(* ------------------------------------------------------------------ *)
(** ** Track selection, any byte in cell 0 *)

Lemma get_start_mem_location_none (track : Z) :
  ~ 1 <= track <= 6 -> get_start_mem_location track = None.
Proof.
  intros Ht. unfold get_start_mem_location.
  repeat match goal with
         | |- context [?a =? ?b] => destruct (Z.eqb_spec a b); [lia|]
         end.
  reflexivity.
Qed.

Lemma increment_track_next (w : world) :
  EEPROM_read (increment_track w) 0 = next_track (EEPROM_read w 0).
Proof.
  rewrite increment_track_cell_0. unfold next_track.
  pose proof (EEPROM_read_range w 0) as Hr.
  destruct (Z.eqb_spec (EEPROM_read w 0) 255) as [E|N].
  - rewrite E. reflexivity.
  - rewrite to_byte_small by lia.
    destruct (Z.eqb_spec (EEPROM_read w 0 + 1) 6),
             (Z.eqb_spec (EEPROM_read w 0) 5); lia.
Qed.

Lemma next_track_iter_up (j : nat) (v : Z) :
  6 <= v -> v + Z.of_nat j <= 255 ->
  Nat.iter j next_track v = v + Z.of_nat j.
Proof.
  intros Hv. induction j as [|j IH]; intros Hj; cbn [Nat.iter nat_rect].
  - lia.
  - change (nat_rect (fun _ => Z) v (fun _ => next_track) j)
      with (Nat.iter j next_track v).
    rewrite IH by lia. unfold next_track.
    destruct (Z.eqb_spec (v + Z.of_nat j) 5); [lia|].
    destruct (Z.eqb_spec (v + Z.of_nat j) 255); lia.
Qed.

(** X4: [increment_track] does not check the byte it reads.  From 0 it
    goes to 1 and from 1..5 it stays in 1..5, but a byte [v] of 6 or more
    is only counted up (255 wraps to 0): after the call the selected track
    has no region, [play_track] has nothing defined to play, and it takes
    [257 - v] calls in all to arrive at track 1. *)
Theorem increment_track_any_byte (w : world) :
  let v := EEPROM_read w 0 in
  EEPROM_read (increment_track w) 0 = next_track v /\
  (0 <= v <= 5 -> 1 <= EEPROM_read (increment_track w) 0 <= 5) /\
  (6 <= v -> play_track (increment_track w) = Undefined /\
             Nat.iter (Z.to_nat (257 - v)) next_track v = 1).
Proof.
  intros v. pose proof (EEPROM_read_range w 0) as Hr. fold v in Hr.
  pose proof (increment_track_next w) as Hn. fold v in Hn.
  split; [exact Hn|]. split.
  - intros Hv. rewrite Hn. unfold next_track.
    destruct (Z.eqb_spec v 5); [lia|].
    destruct (Z.eqb_spec v 255); lia.
  - intros Hv. split.
    + unfold play_track. rewrite Hn.
      rewrite get_start_mem_location_none; [reflexivity|].
      unfold next_track.
      destruct (Z.eqb_spec v 5); [lia|].
      destruct (Z.eqb_spec v 255); lia.
    + replace (Z.to_nat (257 - v)) with (2 + Z.to_nat (255 - v))%nat by lia.
      change (Nat.iter (2 + Z.to_nat (255 - v)) next_track v)
        with (next_track (next_track
                (Nat.iter (Z.to_nat (255 - v)) next_track v))).
      rewrite next_track_iter_up by lia.
      replace (v + Z.of_nat (Z.to_nat (255 - v))) with 255 by lia.
      reflexivity.
Qed.

Lemma increment_track_any_byte_witness :
  play_track
    (increment_track (mkWorld (select 6 factory_eeprom) 0 0 0 [] [] 0 []))
  = Undefined.
Proof.
  apply (proj2 (proj2 (increment_track_any_byte
                         (mkWorld (select 6 factory_eeprom) 0 0 0 [] [] 0 []))));
    vm_compute; discriminate.
Defined.

(* ------------------------------------------------------------------ *)
(** ** The long press of TRACK SELECT *)

Lemma check_buttons_track_only (w : world) :
  current_lines w = only TRACK_SELECT_BUTTON ->
  check_buttons w
  = (true,
     mkWorld (eeprom w) TRACK_CMD 0
             (to_int (incrementTrackButtonCounter w + 1))
             (tl (pins w)) (clock w) (now w) (trace w)).
Proof. intros Hl. unfold check_buttons. rewrite Hl. reflexivity. Qed.

(** A turn of [loop()] with TRACK SELECT alone pressed: it counts, and
    with the counter above 200 it calls [increment_track]. *)
Lemma loop_track_held (w : world) :
  current_lines w = only TRACK_SELECT_BUTTON ->
  0 <= incrementTrackButtonCounter w < INT_MAX ->
  exists w',
    loop w = Returns w' /\
    pins w' = tl (pins w) /\
    incrementTrackButtonCounter w' = incrementTrackButtonCounter w + 1 /\
    EEPROM_read w' 0
    = (if incrementTrackButtonCounter w + 1 >? 200
       then next_track (EEPROM_read w 0) else EEPROM_read w 0) /\
    forall a, a <> 0 -> EEPROM_read w' a = EEPROM_read w a.
Proof.
  intros Hl Hc. unfold loop. rewrite (check_buttons_track_only w Hl).
  cbn [userInput incrementTrackButtonCounter].
  rewrite to_int_small by (unfold INT_MIN, INT_MAX in *; lia).
  change (TRACK_CMD =? RECORD_CMD) with false.
  change (TRACK_CMD =? PLAY_CMD) with false.
  change (TRACK_CMD =? TRACK_CMD) with true. cbv iota.
  set (w1 := mkWorld _ _ _ _ _ _ _ _).
  destruct (Z.gtb_spec (incrementTrackButtonCounter w + 1) 200).
  - exists (delay 10 (increment_track w1)). cbn [bind].
    split; [reflexivity|]. split.
    { unfold increment_track, set_track, delay.
      cbn [emit pins EEPROM_write set_eeprom].
      unfold blink_track.
      match goal with
      | |- pins (blink_times ?n ?x) = _ =>
          assert (Hb : forall m y, pins (blink_times m y) = pins y)
            by (induction m as [|m IH]; intros y; cbn [blink_times];
                [reflexivity | now rewrite IH]);
          rewrite Hb
      end.
      reflexivity. }
    split.
    { unfold increment_track, set_track, delay.
      cbn [emit incrementTrackButtonCounter EEPROM_write set_eeprom].
      unfold blink_track.
      assert (Hb : forall m y, incrementTrackButtonCounter (blink_times m y)
                               = incrementTrackButtonCounter y)
        by (induction m as [|m IH]; intros y; cbn [blink_times];
            [reflexivity | now rewrite IH]).
      rewrite Hb. reflexivity. }
    split.
    { change (EEPROM_read (delay 10 (increment_track w1)) 0)
        with (EEPROM_read (increment_track w1) 0).
      rewrite increment_track_next. reflexivity. }
    intros a Ha.
    change (EEPROM_read (delay 10 (increment_track w1)) a)
      with (EEPROM_read (increment_track w1) a).
    now rewrite increment_track_other_cells.
  - exists (delay 10 w1). cbn [bind]. now repeat split.
Qed.

(** [j] turns of [loop()] with TRACK SELECT held. *)
Lemma run_loop_track_held (j : nat) :
  forall (w : world) (k : nat),
    pins w = repeat (only TRACK_SELECT_BUTTON) k ->
    (j <= k)%nat ->
    0 <= incrementTrackButtonCounter w ->
    incrementTrackButtonCounter w + Z.of_nat j <= INT_MAX ->
    exists w',
      run_loop j w = Returns w' /\
      pins w' = repeat (only TRACK_SELECT_BUTTON) (k - j) /\
      incrementTrackButtonCounter w'
      = incrementTrackButtonCounter w + Z.of_nat j /\
      EEPROM_read w' 0
      = Nat.iter
          (Z.to_nat (incrementTrackButtonCounter w + Z.of_nat j
                     - Z.max 200 (incrementTrackButtonCounter w)))
          next_track (EEPROM_read w 0) /\
      forall a, a <> 0 -> EEPROM_read w' a = EEPROM_read w a.
Proof.
  induction j as [|j IH]; intros w k Hp Hj Hc0 Hc.
  - exists w. cbn [run_loop]. rewrite Nat.sub_0_r.
    replace (Z.to_nat _) with 0%nat by lia.
    repeat split; [exact Hp | lia].
  - destruct k as [|k]; [lia|].
    assert (Hl : current_lines w = only TRACK_SELECT_BUTTON)
      by (unfold current_lines; now rewrite Hp).
    destruct (loop_track_held w Hl ltac:(lia))
      as (w1 & Hrun1 & Hp1 & Hc1 & He1 & Ho1).
    rewrite Hp in Hp1. cbn [repeat tl] in Hp1.
    destruct (IH w1 k Hp1 ltac:(lia) ltac:(lia) ltac:(lia))
      as (w' & Hrun & Hp' & Hc' & He' & Ho').
    exists w'. cbn [run_loop]. rewrite Hrun1. cbn [bind].
    split; [exact Hrun|]. split; [exact Hp'|]. split; [lia|]. split.
    + rewrite He', He1, Hc1.
      destruct (Z.gtb_spec (incrementTrackButtonCounter w + 1) 200).
      * rewrite <- Nat.iter_succ_r. f_equal. lia.
      * f_equal. lia.
    + intros a Ha. now rewrite Ho', Ho1.
Qed.

(** X5: TRACK SELECT held alone from a counter at zero changes nothing
    during the first 200 polls of [loop()]; from poll 201 on every poll
    calls [increment_track] again, the button being still down: after [n]
    polls of the hold cell 0 has been advanced [n - 200] times, and no
    other cell is changed. *)
Theorem track_select_long_press (w : world) (k n : nat) :
  pins w = repeat (only TRACK_SELECT_BUTTON) k ->
  incrementTrackButtonCounter w = 0 ->
  (n <= k)%nat -> Z.of_nat n <= INT_MAX ->
  exists w',
    run_loop n w = Returns w' /\
    EEPROM_read w' 0 = Nat.iter (n - 200) next_track (EEPROM_read w 0) /\
    forall a, a <> 0 -> EEPROM_read w' a = EEPROM_read w a.
Proof.
  intros Hp Hc Hn Hmax.
  destruct (run_loop_track_held n w k Hp Hn ltac:(lia) ltac:(lia))
    as (w' & Hrun & _ & _ & He & Ho).
  exists w'. split; [exact Hrun|]. split; [|exact Ho].
  rewrite He, Hc. f_equal. lia.
Qed.

Lemma track_select_long_press_witness :
  exists w',
    run_loop 203
      (mkWorld factory_eeprom 0 0 0
         (repeat (only TRACK_SELECT_BUTTON) 203) [] 0 [])
    = Returns w' /\
    EEPROM_read w' 0 = 4.
Proof.
  destruct (track_select_long_press
              (mkWorld factory_eeprom 0 0 0
                 (repeat (only TRACK_SELECT_BUTTON) 203) [] 0 [])
              203 203 eq_refl eq_refl (Nat.le_refl _))
    as (w' & Hrun & He & _).
  - vm_compute. discriminate.
  - exists w'. split; [exact Hrun | exact He].
Defined.

(* ------------------------------------------------------------------ *)
(** ** Playback only reads *)

Lemma EEPROM_read_same_eeprom (w1 w2 : world) (a : Z) :
  eeprom w1 = eeprom w2 -> EEPROM_read w1 a = EEPROM_read w2 a.
Proof. intros H. unfold EEPROM_read. now rewrite H. Qed.

(** The loop of [play_track] only sends events out, and which ones depends
    on the EEPROM alone. *)
Lemma play_from_emits (fuel : nat) :
  forall (start pos : Z) (w : world),
    exists es,
      forall w2, eeprom w2 = eeprom w ->
        play_from fuel start pos w2 = emit es w2.
Proof.
  induction fuel as [|fuel IH]; intros start pos w.
  - exists []. intros w2 _. cbn. now rewrite emit_nil.
  - destruct (pos <=? to_int (start + 99)) eqn:Hpos.
    2:{ exists []. intros w2 _. cbn [play_from]. rewrite Hpos.
        now rewrite emit_nil. }
    destruct (EEPROM_read w (pos + 1) =? END) eqn:Hend.
    + exists (pair_events_raw (EEPROM_read w pos) (EEPROM_read w (pos + 1))).
      intros w2 He. cbn [play_from]. rewrite Hpos.
      change (EEPROM_read (Serial_print_num ?a (Serial_print ?s w2)) (pos + 1))
        with (EEPROM_read w2 (pos + 1)).
      rewrite !(EEPROM_read_same_eeprom w2 w) by exact He.
      rewrite Hend, play_event_events.
      unfold delay, Serial_print_num, Serial_print, pair_events_raw.
      now rewrite !emit_emit.
    + destruct (IH start (to_int (pos + 2)) w) as (es & Hes).
      exists (pair_events_raw (EEPROM_read w pos) (EEPROM_read w (pos + 1))
              ++ es).
      intros w2 He. cbn [play_from]. rewrite Hpos.
      change (EEPROM_read (Serial_print_num ?a (Serial_print ?s w2)) (pos + 1))
        with (EEPROM_read w2 (pos + 1)).
      rewrite !(EEPROM_read_same_eeprom w2 w) by exact He.
      rewrite Hend, play_event_events.
      unfold delay, Serial_print_num, Serial_print.
      rewrite !emit_emit. rewrite Hes by exact He.
      rewrite emit_emit. unfold pair_events_raw.
      now rewrite <- !app_assoc.
Qed.

(** X6: [play_track] never writes the EEPROM and changes no variable of
    the sketch; it only sends events out.  With a track 1..6 in cell 0 it
    returns, and playing again right away sends out the same events; with
    any other byte no region is defined. *)
Theorem play_track_only_reads (w : world) :
  match get_start_mem_location (EEPROM_read w 0) with
  | Some _ =>
      exists es,
        play_track w = Returns (emit es w) /\
        play_track (emit es w) = Returns (emit es (emit es w))
  | None => play_track w = Undefined
  end.
Proof.
  destruct (get_start_mem_location (EEPROM_read w 0)) as [start|] eqn:Hs.
  - destruct (play_from_emits 100 start start w) as (es & Hes).
    exists (play_header (EEPROM_read w 0) start ++ es).
    assert (Hplay : forall w2, eeprom w2 = eeprom w ->
              play_track w2
              = Returns (emit (play_header (EEPROM_read w 0) start ++ es) w2)).
    { intros w2 He.
      rewrite (play_track_unfold w2 (EEPROM_read w 0) start);
        [| now apply EEPROM_read_same_eeprom | exact Hs].
      rewrite Hes by exact He. now rewrite emit_emit. }
    split; apply Hplay; reflexivity.
  - unfold play_track. now rewrite Hs.
Qed.

Lemma play_track_emits (w : world) :
  play_track w = Undefined \/ exists es, play_track w = Returns (emit es w).
Proof.
  destruct (get_start_mem_location (EEPROM_read w 0)) as [start|] eqn:Hs.
  - right. destruct (play_from_emits 100 start start w) as (es & Hes).
    exists (play_header (EEPROM_read w 0) start ++ es).
    rewrite (play_track_unfold w _ start eq_refl Hs).
    rewrite Hes by reflexivity. now rewrite emit_emit.
  - left. unfold play_track. now rewrite Hs.
Qed.

(* ------------------------------------------------------------------ *)
(** ** What a turn of the main loop can change *)

(** X7: a turn of [loop()] writes the EEPROM only through a long press:
    unless the poll reports Record with the counter above 200 or
    SelectTrack with the counter above 200, the turn returns with every
    cell as it was; and unless the poll reports Play it calls no actuator
    routine, so YES, NO and SNAKE do nothing outside of a recording. *)
Theorem loop_writes_only_on_long_press (w w' : world) :
  (priority_command (current_lines w) = RECORD_CMD ->
   recordButtonCounter (snd (check_buttons w)) <= 200) ->
  (priority_command (current_lines w) = TRACK_CMD ->
   incrementTrackButtonCounter (snd (check_buttons w)) <= 200) ->
  loop w = Returns w' ->
  (forall a, EEPROM_read w' a = EEPROM_read w a) /\
  (priority_command (current_lines w) <> PLAY_CMD ->
   actuations (trace w') = actuations (trace w)).
Proof.
  intros Hrec Htrk Hloop. unfold loop in Hloop.
  pose proof (check_buttons_userInput w) as Hu.
  pose proof (check_buttons_pressed w) as Hpr.
  pose proof (check_buttons_keeps w) as (He & Ht & _).
  pose proof (priority_command_range (current_lines w)) as Hrange.
  destruct (check_buttons w) as [pressed w1]. cbn [fst snd] in *.
  set (c := priority_command (current_lines w)) in *.
  assert (Hcells : forall es a, EEPROM_read (emit es w1) a = EEPROM_read w a)
    by (intros es a; apply EEPROM_read_same_eeprom; exact He).
  assert (Hacts : forall es, actuations es = [] ->
            actuations (trace (emit es w1)) = actuations (trace w))
    by (intros es Hes; unfold emit; cbn [trace];
        now rewrite actuations_app, Hes, app_nil_r, Ht).
  rewrite Hpr, Hu in Hloop.
  destruct (Z.eqb_spec c 0) as [E0|N0]; cbn [negb] in Hloop.
  { cbn [bind] in Hloop. inversion Hloop; subst w'. split.
    - intros a. apply (Hcells [Delay 10]).
    - intros _. now apply (Hacts [Delay 10]). }
  destruct (Z.eqb_spec c RECORD_CMD) as [E1|N1].
  { destruct (Z.gtb_spec (recordButtonCounter w1) 200) as [Hgt|_];
      [specialize (Hrec E1); lia|].
    cbn [bind] in Hloop. inversion Hloop; subst w'. split.
    - intros a. apply (Hcells [Delay 10]).
    - intros _. now apply (Hacts [Delay 10]). }
  destruct (Z.eqb_spec c PLAY_CMD) as [E2|N2].
  { destruct (play_track_emits w1) as [Hp|(es & Hp)]; rewrite Hp in Hloop;
      cbn [bind] in Hloop; [discriminate Hloop|].
    inversion Hloop; subst w'. split; [|intros Hne; contradiction].
    intros a. unfold delay. rewrite emit_emit. apply Hcells. }
  destruct (Z.eqb_spec c TRACK_CMD) as [E3|N3].
  { destruct (Z.gtb_spec (incrementTrackButtonCounter w1) 200) as [Hgt|_];
      [specialize (Htrk E3); lia|].
    cbn [bind] in Hloop. inversion Hloop; subst w'. split.
    - intros a. apply (Hcells [Delay 10]).
    - intros _. now apply (Hacts [Delay 10]). }
  cbn [bind] in Hloop. inversion Hloop; subst w'.
  unfold delay, Serial_print_num, Serial_print. rewrite !emit_emit. split.
  - intros a. apply Hcells.
  - intros _. now apply Hacts.
Qed.

Lemma loop_writes_only_on_long_press_witness :
  EEPROM_read
    (delay 10
       (Serial_print_num YES_CMD
          (Serial_print "Invalid userInput: "
             (snd (check_buttons
                     (mkWorld factory_eeprom 0 0 0 [only YES_BUTTON]
                              [] 0 []))))))
    1
  = 56.
Proof.
  refine (proj1 (loop_writes_only_on_long_press
                   (mkWorld factory_eeprom 0 0 0 [only YES_BUTTON] [] 0 [])
                   _ _ _ eq_refl) 1).
  - intros H. vm_compute in H. discriminate H.
  - intros H. vm_compute in H. discriminate H.
Defined.

(* ------------------------------------------------------------------ *)
(** ** What recording can change *)






(* ------------------------------------------------------------------ *)
(** ** Presses of PLAY and TRACK SELECT during a recording *)

Lemma record_press_other (track d len : Z) (w : world) :
  userInput w = PLAY_CMD \/ userInput w = TRACK_CMD ->
  record_press track d len w = ((len, true), Returns w).
Proof.
  intros [H|H]; unfold record_press; rewrite H; reflexivity.
Qed.

(** X10: a press of PLAY or TRACK SELECT during a recording records
    nothing: no cell is written, the number of recorded events stays and no
    actuator routine is called.  It is not without effect though: after the
    release the delay of the next event is measured from that release, not
    from the last recorded event. *)
Theorem record_loop_skips_play_and_track
    (f : nat) (track last len : Z) (w : world)
    (t t_rel : Z) (cs : list Z) (l : lines) (hs ps : list lines) :
  priority_command l = PLAY_CMD \/ priority_command l = TRACK_CMD ->
  Forall is_pressed hs ->
  pins w = l :: hs ++ all_released :: ps ->
  clock w = t :: t_rel :: cs ->
  exists w',
    record_loop (S f) track last len w
    = record_loop f track (to_long (to_ulong t_rel)) len w' /\
    pins w' = ps /\ clock w' = cs /\
    (forall a, EEPROM_read w' a = EEPROM_read w a) /\
    actuations (trace w') = actuations (trace w).
Proof.
  intros Hkey Hh Hp Hc. cbn [record_loop].
  match goal with
  | |- context [millis ?x] => rewrite (millis_cons x t (t_rel :: cs) Hc)
  end.
  match goal with
  | |- context [check_buttons ?x] => set (wb := x)
  end.
  assert (Hpb : pins wb = l :: hs ++ all_released :: ps) by exact Hp.
  assert (Heb : eeprom wb = eeprom w) by reflexivity.
  assert (Htb : actuations (trace wb) = actuations (trace w)).
  { unfold wb, Serial_print_num, Serial_print, delay, digitalWrite, emit.
    cbn [trace]. rewrite !actuations_app. cbn [actuations filter].
    now rewrite !app_nil_r. }
  assert (Hcb : clock wb = t_rel :: cs) by reflexivity.
  assert (Hl : current_lines wb = l)
    by (unfold current_lines; now rewrite Hpb).
  pose proof (check_buttons_userInput wb) as Hu.
  pose proof (check_buttons_pressed wb) as Hpr.
  pose proof (check_buttons_keeps wb) as (He1 & Ht1 & Hc1 & _ & Hp1).
  rewrite Hl in Hu, Hpr. rewrite Hpb in Hp1. cbn [tl] in Hp1.
  clearbody wb.
  destruct (check_buttons wb) as [pressed wc]. cbn [fst snd] in *.
  assert (Hpressed : pressed = true)
    by (rewrite Hpr; destruct Hkey as [E|E]; rewrite E; reflexivity).
  rewrite Hpressed.
  set (wd := digitalWrite RED_LED_pin HIGH wc).
  rewrite (record_press_other track _ len wd) by (rewrite <- Hu in Hkey; exact Hkey).
  cbn [bind].
  assert (Hpd : pins wd = hs ++ all_released :: ps) by exact Hp1.
  destruct (wait_release_held hs ps wd Hh Hpd)
    as (Hpf & Hef & Htf & Hcf & _).
  set (wf := wait_release wd) in *.
  assert (Hcf' : clock wf = t_rel :: cs)
    by (rewrite Hcf; change (clock wd) with (clock wc); congruence).
  rewrite (millis_cons wf t_rel cs Hcf').
  eexists. split; [reflexivity|]. cbn [digitalWrite emit pins clock trace].
  split; [exact Hpf|]. split; [reflexivity|]. split.
  - intros a. unfold EEPROM_read. cbn [eeprom]. rewrite Hef.
    change (eeprom wd) with (eeprom wc). now rewrite He1, Heb.
  - rewrite actuations_app, Htf. unfold wd, digitalWrite, emit. cbn [trace].
    rewrite actuations_app, Ht1, Htb. cbn. now rewrite !app_nil_r.
Qed.

Lemma record_loop_skips_play_and_track_witness :
  exists w',
    record_loop 1 1 1000 0
      (mkWorld factory_eeprom 0 0 0 [only PLAY_BUTTON; all_released]
               [5000; 9000] 0 [])
    = record_loop 0 1 (to_long (to_ulong 9000)) 0 w' /\
    pins w' = [] /\ clock w' = [] /\
    (forall a, EEPROM_read w' a
               = EEPROM_read
                   (mkWorld factory_eeprom 0 0 0
                            [only PLAY_BUTTON; all_released]
                            [5000; 9000] 0 []) a) /\
    actuations (trace w') = [].
Proof.
  apply (record_loop_skips_play_and_track 0 1 1000 0
           (mkWorld factory_eeprom 0 0 0 [only PLAY_BUTTON; all_released]
                    [5000; 9000] 0 [])
           5000 9000 [] (only PLAY_BUTTON) [] []).
  - left. reflexivity.
  - constructor.
  - reflexivity.
  - reflexivity.
Defined.

(* ------------------------------------------------------------------ *)
(** ** The delay byte *)

(** X11: the delay byte of a recorded event is the measured time in whole
    tenths of a second, rounded down, while that is below 25.5 s, and 255
    from 25.5 s on, for every measured time below [2 ^ 31] ms; times of
    less than 100 ms give 0. *)
Theorem measured_delay_saturates (t since : Z) :
  0 <= t - since < 2 ^ 31 ->
  (t - since < 25500 ->
   measured_delay (to_ulong t) (to_long (to_ulong since)) = (t - since) / 100) /\
  (25500 <= t - since ->
   measured_delay (to_ulong t) (to_long (to_ulong since)) = 255) /\
  (t - since < 100 ->
   measured_delay (to_ulong t) (to_long (to_ulong since)) = 0).
Proof.
  intros H. rewrite (measured_delay_clamped t since H). unfold clamped_tenths.
  repeat split; intros Hd.
  - assert ((t - since) / 100 < 255)
      by (apply Z.div_lt_upper_bound; lia).
    lia.
  - assert (255 <= (t - since) / 100)
      by (apply Z.div_le_lower_bound; lia).
    lia.
  - rewrite Z.div_small by lia. lia.
Qed.

Lemma measured_delay_saturates_witness :
  measured_delay (to_ulong 4294967000) (to_long (to_ulong 4294937000)) = 255.
Proof.
  apply (proj1 (proj2 (measured_delay_saturates 4294967000 4294937000
                         ltac:(cbn; lia)))).
  lia.
Defined.

(* ------------------------------------------------------------------ *)
(** ** Where recording writes *)

(** X12: [record_event] writes the delay byte and the type byte of event
    number [len] to the cells [start + 2 * len] and [start + 2 * len + 1]
    and to no other cell.  Both cells lie in the region of the track for
    the events 0 to 49 and outside of it from event 50 on, for which no
    check is made: for the tracks 2 to 5 the events 50 to 99 land in the
    region of the next track. *)
Theorem record_event_region
    (track start d k len : Z) (w : world) :
  get_start_mem_location track = Some start ->
  0 <= len <= 255 ->
  exists w',
    record_event track d k len w = Returns w' /\
    EEPROM_read w' (start + 2 * len) = to_byte d /\
    EEPROM_read w' (start + 2 * len + 1) = to_byte k /\
    (forall a, a <> start + 2 * len -> a <> start + 2 * len + 1 ->
               EEPROM_read w' a = EEPROM_read w a) /\
    (len <= 49 ->
     in_region track (start + 2 * len) /\
     in_region track (start + 2 * len + 1)) /\
    (50 <= len ->
     ~ in_region track (start + 2 * len) /\
     ~ in_region track (start + 2 * len + 1)) /\
    (50 <= len <= 99 -> 2 <= track <= 5 ->
     in_region (track + 1) (start + 2 * len) /\
     in_region (track + 1) (start + 2 * len + 1)).
Proof.
  intros Hs Hlen.
  pose proof (get_start_mem_location_some _ _ Hs) as (Ht & Hstart & Heq).
  rewrite (record_event_writes track start d k len w Hs Hlen).
  eexists. split; [reflexivity|].
  fold (with_pair (start + 2 * len) d k w).
  split.
  { rewrite with_pair_read.
    destruct (Z.eqb_spec (start + 2 * len) (start + 2 * len + 1)); [lia|].
    now rewrite Z.eqb_refl. }
  split.
  { rewrite with_pair_read. now rewrite Z.eqb_refl. }
  split.
  { intros a H1 H2. rewrite with_pair_read.
    destruct (Z.eqb_spec a (start + 2 * len + 1)); [contradiction|].
    destruct (Z.eqb_spec a (start + 2 * len)); [contradiction|reflexivity]. }
  unfold in_region. rewrite Hs.
  split; [intros H; lia|]. split; [intros H; lia|].
  intros Hl Htr.
  assert (Hnext : get_start_mem_location (track + 1) = Some (start + 100)).
  { assert (Hc : track = 2 \/ track = 3 \/ track = 4 \/ track = 5) by lia.
    destruct Hc as [E|[E|[E|E]]]; subst track; cbn in Heq; subst start;
      reflexivity. }
  rewrite Hnext. lia.
Qed.

Lemma record_event_region_witness :
  exists w',
    record_event 2 7 YES 50 (mkWorld factory_eeprom 0 0 0 [] [] 0 [])
    = Returns w' /\
    EEPROM_read w' 200 = 7 /\ in_region 3 200.
Proof.
  destruct (record_event_region 2 100 7 YES 50
              (mkWorld factory_eeprom 0 0 0 [] [] 0 []) eq_refl
              ltac:(lia))
    as (w' & Hrun & Hd & _ & _ & _ & _ & Hnext).
  exists w'. split; [exact Hrun|]. split; [exact Hd|].
  apply (proj1 (Hnext ltac:(lia) ltac:(lia))).
Defined.

Lemma with_pairs_above (ps : list (Z * Z)) :
  forall (a : Z) (w : world) (x : Z),
    a + 2 * Z.of_nat (List.length ps) <= x ->
    EEPROM_read (with_pairs a ps w) x = EEPROM_read w x.
Proof.
  induction ps as [|p ps IH]; intros a w x Hx; cbn [with_pairs];
    [reflexivity|].
  cbn [List.length] in Hx.
  rewrite IH by lia. rewrite with_pair_read.
  destruct (Z.eqb_spec x (a + 1)); [lia|].
  destruct (Z.eqb_spec x a); [lia|reflexivity].
Qed.

(** X13: a recording session of [n] presses ended by REC rewrites the
    track from its first cell on: the pairs 0 to [n - 1] are the presses
    in order, pair [n] is the pair that ends the track, and every cell
    before the track or after pair [n] keeps its byte, so what an earlier,
    longer recording left behind the [END] stays in the EEPROM.  Nothing
    bounds [n] by 50: the pairs from number 50 on are written behind the
    region. *)
Theorem record_track_layout (w : world) (s : session) (track start : Z) :
  EEPROM_read w 0 = track ->
  get_start_mem_location track = Some start ->
  pins w = session_pins s ->
  clock w = session_clock s ->
  session_ok s ->
  (List.length (presses s) <= 255)%nat ->
  exists w1 d_end,
    record_track w = Returns w1 /\
    first_pairs w1 start (S (List.length (presses s)))
    = pressed_pairs (started_at s) (presses s) ++ [(d_end, END)] /\
    forall a,
      a < start \/
      start + 2 * (Z.of_nat (List.length (presses s)) + 1) <= a ->
      EEPROM_read w1 a = EEPROM_read w a.
Proof.
  intros Htrack Hstart Hp Hc Hok Hn.
  destruct (record_track_session w s track start Htrack Hstart Hp Hc Hok Hn)
    as (w1 & d_end & Hrec & Hd & He).
  destruct Hok as (_ & Hok & _).
  pose proof (pressed_pairs_bytes _ _ Hok) as Hpairs.
  pose proof (pressed_pairs_length (presses s) (started_at s)) as Hlen.
  exists w1, d_end. split; [exact Hrec|]. split.
  - assert (Hall : Forall byte_pair
                     (pressed_pairs (started_at s) (presses s)
                      ++ [(d_end, END)])).
    { apply Forall_app. split.
      - eapply Forall_impl; [|exact Hpairs]. now intros p [H _].
      - constructor; [|constructor]. split; [exact Hd|]. vm_compute.
        split; discriminate. }
    pose proof (first_pairs_recorded w w1 start _ Hall He) as Hfirst.
    rewrite length_app, Hlen in Hfirst. cbn [List.length] in Hfirst.
    replace (List.length (presses s) + 1)%nat
      with (S (List.length (presses s))) in Hfirst by lia.
    exact Hfirst.
  - intros a Ha. rewrite He. destruct Ha as [Ha|Ha].
    + now apply with_pairs_below.
    + apply with_pairs_above. rewrite length_app, Hlen.
      cbn [List.length]. lia.
Qed.

Lemma record_track_layout_witness :
  exists w1 d_end,
    record_track (session_world factory_eeprom two_yes_session)
    = Returns w1 /\
    first_pairs w1 1 3 = [(53, YES); (51, YES); (d_end, END)] /\
    forall a, a < 1 \/ 1 + 2 * (2 + 1) <= a ->
      EEPROM_read w1 a
      = EEPROM_read (session_world factory_eeprom two_yes_session) a.
Proof.
  apply (record_track_layout
           (session_world factory_eeprom two_yes_session) two_yes_session 1 1
           eq_refl eq_refl eq_refl eq_refl).
  - unfold two_yes_session. session_facts.
  - cbn. lia.
Defined.

(* ------------------------------------------------------------------ *)
(** ** The blinks of the track number *)





(* ------------------------------------------------------------------ *)
(** ** Start-up *)

(** Playback of any EEPROM whose cells 0 to 20 are those of the factory. *)
Lemma play_factory_cells (w : world) :
  (forall a, 0 <= a <= 20 ->
             EEPROM_read w a = nth (Z.to_nat a) factory_cells 0) ->
  play_track w
  = Returns (emit (play_header 1 1
                   ++ flat_map pair_events (pairs_of example_track_1)) w).
Proof.
  intros Hcells.
  assert (Hfirst : first_pairs w 1 10 = pairs_of example_track_1).
  { unfold first_pairs, pair_at. cbn [seq map].
    rewrite !Hcells by (cbn; lia). reflexivity. }
  rewrite <- Hfirst.
  apply (play_track_to_END w 1 1 9).
  - apply (Hcells 0). lia.
  - reflexivity.
  - lia.
  - unfold pair_at. cbn [snd]. rewrite Hcells by (cbn; lia). reflexivity.
  - intros i Hi. unfold pair_at. cbn [snd]. rewrite Hcells by lia.
    assert (Hc : (i = 0 \/ i = 1 \/ i = 2 \/ i = 3 \/ i = 4 \/ i = 5 \/
                  i = 6 \/ i = 7 \/ i = 8)%nat) by lia.
    repeat (destruct Hc as [Hc|Hc]; [subst i; vm_compute; discriminate|]).
    subst i. vm_compute. discriminate.
Qed.

(** The cells after [setup] when no poll of the boot reports Record. *)
Lemma setup_cells (w : world) (a : Z) :
  Forall (fun l => priority_command l <> RECORD_CMD) (pins w) ->
  EEPROM_read (setup w) a
  = (if EEPROM_read w 1023 =? 255
     then EEPROM_read (EEPROM_write 1023 0 (factory_reset w)) a
     else EEPROM_read w a).
Proof.
  intros HP. unfold setup.
  set (w0 := digitalWrite 7 LOW (digitalWrite GREEN_LED_pin LOW
               (digitalWrite RED_LED_pin LOW (digitalWrite 4 LOW
                  (Serial_print "OpenSnake Firmware Version 1.0" w))))).
  rewrite EEPROM_read_blink_track.
  change (EEPROM_read (Serial_print_num ?x (Serial_print ?s ?y)) a)
    with (EEPROM_read y a).
  assert (Hp0 : Forall (fun l => priority_command l <> RECORD_CMD) (pins w0))
    by exact HP.
  assert (Hfb : Forall (fun l => priority_command l <> RECORD_CMD)
                  (pins (first_boot w0))).
  { unfold first_boot. destruct (EEPROM_read w0 1023 =? 255); [|exact Hp0].
    rewrite EEPROM_write_pins. now apply factory_reset_pins. }
  rewrite (proj2 (manual_reset_other_turn 3 0 (first_boot w0)
                    (current_lines_Forall
                       (fun l => priority_command l <> RECORD_CMD)
                       (first_boot w0) ltac:(discriminate) Hfb))).
  unfold first_boot.
  change (EEPROM_read w0 1023) with (EEPROM_read w 1023).
  destruct (EEPROM_read w 1023 =? 255); [|reflexivity].
  destruct (Z.eqb_spec a 1023) as [->|Ha].
  - now rewrite !EEPROM_read_write_same.
  - rewrite !EEPROM_read_write_other by exact Ha.
    destruct (Z_le_gt_dec 0 a) as [H0|H0];
      [destruct (Z_le_gt_dec a 20) as [H20|H20]|].
    + now rewrite !factory_reset_cell by lia.
    + now rewrite !factory_reset_other_cells by lia.
    + now rewrite !factory_reset_other_cells by lia.
Qed.

(** X15: the first boot of a fresh chip (255 in cell 1023) on which no
    poll reports Record leaves track 1 selected, [example_track_1] in the
    cells 1 to 20, 0 in cell 1023 and every other cell as it was, 255 on a
    fresh chip; [play_track] then plays the factory track. *)
Theorem setup_of_fresh_chip (w : world) :
  EEPROM_read w 1023 = 255 ->
  Forall (fun l => priority_command l <> RECORD_CMD) (pins w) ->
  (forall a,
      EEPROM_read (setup w) a
      = (if a =? 1023 then 0
         else if (0 <=? a) && (a <=? 20) then nth (Z.to_nat a) factory_cells 0
         else EEPROM_read w a)) /\
  play_track (setup w)
  = Returns (emit (play_header 1 1
                   ++ flat_map pair_events (pairs_of example_track_1))
                  (setup w)).
Proof.
  intros Hfresh HP.
  assert (Hcells : forall a,
             EEPROM_read (setup w) a
             = (if a =? 1023 then 0
                else if (0 <=? a) && (a <=? 20)
                     then nth (Z.to_nat a) factory_cells 0
                     else EEPROM_read w a)).
  { intros a. rewrite (setup_cells w a HP), Hfresh. cbn [Z.eqb Pos.eqb].
    destruct (Z.eqb_spec a 1023) as [->|Ha].
    - now rewrite EEPROM_read_write_same.
    - rewrite EEPROM_read_write_other by exact Ha.
      destruct (Z.leb_spec 0 a); destruct (Z.leb_spec a 20); cbn [andb];
        try solve [exfalso; lia].
      + now apply factory_reset_cell.
      + apply factory_reset_other_cells. lia.
      + apply factory_reset_other_cells. lia. }
  split; [exact Hcells|].
  apply play_factory_cells. intros a Ha. rewrite Hcells.
  destruct (Z.eqb_spec a 1023); [lia|].
  destruct (Z.leb_spec 0 a); destruct (Z.leb_spec a 20); cbn [andb];
    solve [reflexivity | lia].
Qed.

Lemma setup_of_fresh_chip_witness :
  play_track (setup (mkWorld fresh_eeprom 0 0 0 [only YES_BUTTON] [] 0 []))
  = Returns
      (emit (play_header 1 1
             ++ flat_map pair_events (pairs_of example_track_1))
            (setup (mkWorld fresh_eeprom 0 0 0 [only YES_BUTTON] [] 0 []))).
Proof.
  apply (proj2 (setup_of_fresh_chip
                  (mkWorld fresh_eeprom 0 0 0 [only YES_BUTTON] [] 0 [])
                  eq_refl
                  ltac:(repeat constructor; vm_compute; discriminate))).
Defined.

(** X16: a boot of a chip that is not fresh (cell 1023 is not 255) on
    which no poll reports Record writes no cell of the EEPROM and runs no
    factory reset: tracks and selection survive a power cycle. *)
Theorem setup_of_used_chip (w : world) :
  EEPROM_read w 1023 <> 255 ->
  Forall (fun l => priority_command l <> RECORD_CMD) (pins w) ->
  (forall a, EEPROM_read (setup w) a = EEPROM_read w a) /\
  resets (trace (setup w)) = resets (trace w).
Proof.
  intros Hused HP. split.
  - intros a. rewrite (setup_cells w a HP).
    destruct (Z.eqb_spec (EEPROM_read w 1023) 255); [contradiction|].
    reflexivity.
  - pose proof (setup_after_first_boot w) as [_ Hres].
    pose proof (setup_prologue w) as (He0 & Hp0 & Hr0).
    cbv zeta in Hres, He0, Hp0, Hr0.
    set (w0 := digitalWrite 7 LOW (digitalWrite GREEN_LED_pin LOW
                 (digitalWrite RED_LED_pin LOW (digitalWrite 4 LOW
                    (Serial_print "OpenSnake Firmware Version 1.0" w)))))
      in *.
    assert (Hw0 : first_boot w0 = w0).
    { apply first_boot_used. unfold EEPROM_read in *. now rewrite He0. }
    rewrite Hw0 in Hres. rewrite Hres; [exact Hr0|].
    apply (current_lines_Forall (fun l => priority_command l <> RECORD_CMD));
      [discriminate|].
    now rewrite Hp0.
Qed.

Lemma setup_of_used_chip_witness :
  resets (trace (setup (mkWorld factory_eeprom 0 0 0 [] [] 0 []))) = 0%nat.
Proof.
  apply (proj2 (setup_of_used_chip (mkWorld factory_eeprom 0 0 0 [] [] 0 [])
                  ltac:(vm_compute; discriminate) (Forall_nil _))).
Defined.
